(** * EpsillaSink: the Epsilla sink connector of NeumAI

    A shallow embedding of [neumai/SinkConnectors/EpsillaSink.py] and the
    properties of its operations: [validation], [store], [search],
    [info] and [delete_vectors_with_file_id].

    The connector talks to a remote service through the [pyepsilla]
    client.  The client is not part of the connector, so every call into
    it is a request of a small free monad ([prog]); a run of a program
    against a backend ([run]) threads the backend's state and records the
    requests with their answers.  The properties hold for every backend
    and every state of it.

    What the model takes for granted:
    - a call into the client returns a value or raises an exception that
      [except Exception] catches;
    - the JSON bodies the service returns are well-typed (a listing is a
      list of names, a match has an id, a vector, metadata and a
      distance); a body may lack its ["result"] or its ["message"];
    - strings have code points below 256;
    - [int] converts at most 4300 digits, the default limit of CPython
      3.11 and later. *)

From Stdlib Require Import ZArith Ascii String List Bool Lia Floats.
From stdpp Require Import base option list strings pretty gmap.

Local Open Scope Z_scope.
Local Open Scope string_scope.
Local Open Scope list_scope.

(** ** Python values *)

(** Python strings are modelled by [string]: sequences of code points
    below 256.  On that range the regular expression class [\d] is
    exactly ['0'..'9']. *)

(** JSON-compatible values, the values of a record's metadata mapping.
    A Python [float] is an IEEE 754 binary64 number. *)
#[warnings="-register-all"]
Inductive pyval : Type :=
| PNone
| PBool (b : bool)
| PInt (z : Z)
| PFloat (f : float)
| PStr (s : string)
| PList (l : list pyval)
| PDict (d : gmap string pyval).

(** Python truth value testing ([bool(v)]). *)
Definition truthy (v : pyval) : bool :=
  match v with
  | PNone => false
  | PBool b => b
  | PInt z => negb (Z.eqb z 0)
  | PFloat f => negb (PrimFloat.eqb f PrimFloat.zero)
  | PStr s => negb (String.eqb s "")
  | PList l => match l with [] => false | _ => true end
  | PDict d => negb (Nat.eqb (size d) 0)
  end.

(** ** Exceptions *)

(** The connector's own exceptions ([neumai.Shared.Exceptions]), the
    built-in exceptions its code can raise, and [ClientException] for an
    exception raised inside the [pyepsilla] client (a network error, a
    rejected credential, ...). *)
Inductive exn : Type :=
| EpsillaConnectionException (msg : string)
| EpsillaInsertionException (msg : string)
| EpsillaIndexInfoException (msg : string)
| EpsillaQueryException (msg : string)
| KeyError (key : string)
| IndexError (msg : string)
| TypeError (msg : string)
| ValueError (msg : string)
| ClientException (msg : string).

(** [repr(s)] of a string with code points below 256.  The quotes are
    single, or double when the string has a single quote and no double
    one; the quote in use and the backslash are escaped, tab, newline and
    carriage return are written with their letters, and the other
    characters that are not printable (controls, the no-break space, the
    soft hyphen) in hexadecimal. *)
Definition double_quote : ascii := "034"%char.

Definition hex_digit (n : N) : ascii :=
  match String.get (N.to_nat n) "0123456789abcdef" with
  | Some c => c
  | None => "0"%char
  end.

Definition printable (c : ascii) : bool :=
  let n := N_of_ascii c in
  ((32 <=? n)%N && (n <=? 126)%N) || ((161 <=? n)%N && negb (n =? 173)%N).

Definition repr_char (quote c : ascii) : string :=
  let n := N_of_ascii c in
  if Ascii.eqb c quote || Ascii.eqb c "\"%char
  then String "\"%char (String c EmptyString)
  else if (n =? 9)%N then "\t"
  else if (n =? 10)%N then "\n"
  else if (n =? 13)%N then "\r"
  else if printable c then String c EmptyString
  else String "\"%char
         (String "x"%char
            (String (hex_digit (n / 16)%N)
               (String (hex_digit (n mod 16)%N) EmptyString))).

Definition has_char (c : ascii) (s : string) : bool :=
  existsb (Ascii.eqb c) (list_ascii_of_string s).

Fixpoint repr_chars (quote : ascii) (s : string) : string :=
  match s with
  | EmptyString => EmptyString
  | String c s' => repr_char quote c +:+ repr_chars quote s'
  end.

Definition repr (s : string) : string :=
  let quote :=
    if has_char "'"%char s && negb (has_char double_quote s)
    then double_quote else "'"%char in
  String quote (repr_chars quote s +:+ String quote EmptyString).

(** [str(e)], as an f-string renders an exception.  [str] of a [KeyError]
    is the [repr] of its key. *)
Definition exn_str (e : exn) : string :=
  match e with
  | EpsillaConnectionException msg | EpsillaInsertionException msg
  | EpsillaIndexInfoException msg | EpsillaQueryException msg
  | IndexError msg | TypeError msg | ValueError msg
  | ClientException msg => msg
  | KeyError key => repr key
  end.

(** ** Shared data types *)

Module NeumVector.
(** [neumai.Shared.NeumVector]: the unit of data stored. *)
Record t : Type := Build {
  id : string;
  vector : list float;
  metadata : gmap string pyval
}.
End NeumVector.

Module NeumSearchResult.
(** [neumai.Shared.NeumSearch]: the unit of data a search returns. *)
Record t : Type := Build {
  id : string;
  vector : list float;
  metadata : gmap string pyval;
  score : float
}.
End NeumSearchResult.

Module NeumSinkInfo.
Record t : Type := Build { number_vectors_stored : Z }.
End NeumSinkInfo.

(** ** The pyepsilla client, as the connector sees it *)

(** [cloud.Client(project_id=..., api_key=...)] and
    [client.vectordb(db_id)]: handles, determined by their arguments. *)
Record Client : Type := { client_project_id : string; client_api_key : string }.
Record Vectordb : Type := { db_client : Client; db_db_id : string }.

(** One entry of [table_fields] in [create_table]. *)
Record table_field : Type := {
  name : string;
  dataType : string;
  dimensions : option Z
}.

(** One entry of [records] in [insert]: the dict built by [store]. *)
Record data : Type := {
  data_id : string;
  data_vector : list float;
  data_metadata : gmap string pyval;
  data_file_entry_id : pyval
}.

(** One entry of [response["result"]] of a query with distances. *)
Record match_row : Type := {
  row_id : string;
  row_vector : list float;
  row_metadata : gmap string pyval;
  row_distance : float
}.

(** The JSON body of an answer (the [response] of the code): a dict in
    which ["result"] and ["message"] may each be present or not.  The
    values are taken well-typed, as the service's API documents them. *)
Record body (T : Type) : Type := {
  result : option T;
  message : option string
}.
Arguments result {T} _.
Arguments message {T} _.

(** The calls of the connector into the client.  The index is the type of
    the value a call returns: [client.validate()] returns the JSON body of
    its answer, the methods of [Vectordb] return a pair
    [(status_code, response)]. *)
Inductive request : Type -> Type :=
| NewClient (project_id api_key : string) : request unit
| ClientValidate (c : Client) : request pyval
| ClientVectordb (c : Client) (db_id : string) : request unit
| ListTables (db : Vectordb) : request (Z * body (list string))
| CreateTable (db : Vectordb) (table_name : string)
              (table_fields : list table_field) : request (Z * body unit)
| Insert (db : Vectordb) (table_name : string)
         (records : list data) : request (Z * body unit)
| Query (db : Vectordb) (table_name query_field : string)
        (query_vector : list float) (limit : Z)
        (with_distance : bool) : request (Z * body (list match_row))
| Get (db : Vectordb) (table_name : string) : request (Z * body (list data))
| Delete (db : Vectordb) (table_name : string)
         (filter : string) : request (Z * body unit).

(** ** Programs *)

(** A connector method is a program: it returns, raises, or calls the
    client and goes on with the answer, which is the value returned by
    the call or the exception raised inside it. *)
Inductive prog (A : Type) : Type :=
| Ret (a : A)
| Raise (e : exn)
| Call {R : Type} (r : request R) (k : exn + R -> prog A).
Arguments Ret {A} _.
Arguments Raise {A} _.
Arguments Call {A R} _ _.

Fixpoint bind {A B : Type} (p : prog A) (f : A -> prog B) : prog B :=
  match p with
  | Ret a => f a
  | Raise e => Raise e
  | Call r k => Call r (fun x => bind (k x) f)
  end.

#[global] Instance prog_ret : MRet prog := fun _ a => Ret a.
#[global] Instance prog_bind : MBind prog := fun _ _ f p => bind p f.

(** A call outside any [try]: an exception raised inside it propagates. *)
Definition call {R : Type} (r : request R) : prog R :=
  Call r (fun x => match x with inl e => Raise e | inr v => Ret v end).

(** [try: p except Exception as e: h e]. *)
Fixpoint try_except {A : Type} (p : prog A) (h : exn -> prog A) : prog A :=
  match p with
  | Ret a => Ret a
  | Raise e => h e
  | Call r k => Call r (fun x => try_except (k x) h)
  end.

(** ** Running a program against a backend *)

Inductive outcome (A : Type) : Type :=
| Returned (a : A)
| Raised (e : exn).
Arguments Returned {A} _.
Arguments Raised {A} _.

(** A request together with its answer. *)
Inductive event : Type :=
| Ev {R : Type} (r : request R) (a : exn + R).

(** A backend with states [S] answers each request and moves to a new
    state. *)
Definition backend (S : Type) : Type :=
  forall R : Type, request R -> S -> (exn + R) * S.

Fixpoint run {S A : Type} (h : backend S) (p : prog A) (s : S)
  : outcome A * S * list event :=
  match p with
  | Ret a => (Returned a, s, [])
  | Raise e => (Raised e, s, [])
  | Call r k =>
      let '(a, s1) := h _ r s in
      let '(o, s2, tr) := run h (k a) s1 in
      (o, s2, Ev r a :: tr)
  end.

(** ** Python built-ins used by the connector *)

(** [d[key]] on a dict. *)
Definition subscript {V : Type} (d : gmap string V) (key : string) : prog V :=
  match d !! key with
  | Some v => Ret v
  | None => Raise (KeyError key)
  end.

(** [response["result"]] and [response["message"]]. *)
Definition subscript_result {T : Type} (response : body T) : prog T :=
  match result response with
  | Some v => Ret v
  | None => Raise (KeyError "result")
  end.

Definition subscript_message {T : Type} (response : body T) : prog string :=
  match message response with
  | Some v => Ret v
  | None => Raise (KeyError "message")
  end.

(** [l[0]] on a list. *)
Definition first_item {A : Type} (l : list A) : prog A :=
  match l with
  | x :: _ => Ret x
  | [] => Raise (IndexError "list index out of range")
  end.

(** [x in l] for a string [x] and a list of strings [l]. *)
Definition contains (x : string) (l : list string) : bool :=
  existsb (String.eqb x) l.

Definition len {A : Type} (l : list A) : Z := Z.of_nat (length l).

(** The class [\d]. *)
Definition is_digit (c : ascii) : bool :=
  (48 <=? N_of_ascii c)%N && (N_of_ascii c <=? 57)%N.

(** [findall(r'\d+', s)]: the maximal runs of digits of [s], from left to
    right.  [cur] is the run being read, in reading order. *)
Fixpoint findall_digits_from (s : string) (cur : string) : list string :=
  match s with
  | EmptyString => match cur with EmptyString => [] | _ => [cur] end
  | String c s' =>
      if is_digit c then findall_digits_from s' (cur +:+ String c EmptyString)
      else match cur with
           | EmptyString => findall_digits_from s' EmptyString
           | _ => cur :: findall_digits_from s' EmptyString
           end
  end.

Definition findall_digits (s : string) : list string :=
  findall_digits_from s EmptyString.

(** The value of a digit, and of a string of digits read after [acc]. *)
Definition digit_value (c : ascii) : Z := Z.of_N (N_of_ascii c) - 48.

Fixpoint int_from (s : string) (acc : Z) : Z :=
  match s with
  | EmptyString => acc
  | String c s' => int_from s' (10 * acc + digit_value c)
  end.

(** The largest number of digits [int] converts
    ([sys.int_info.default_max_str_digits]). *)
Definition max_str_digits : nat := 4300.

(** [int(s)] for a string of digits: the number, or [ValueError] when the
    string has more digits than the limit. *)
Definition digits_limit_error (s : string) : exn :=
  ValueError
    ("Exceeds the limit (" +:+ pretty max_str_digits
       +:+ " digits) for integer string conversion: value has "
       +:+ pretty (String.length s)
       +:+ " digits; use sys.set_int_max_str_digits() to increase the limit").

Definition int (s : string) : prog Z :=
  if Nat.ltb max_str_digits (String.length s)
  then Raise (digits_limit_error s)
  else Ret (int_from s 0).

(** [[int(match) for match in matches]]: from left to right, up to the
    first conversion that raises. *)
Fixpoint int_each (matches : list string) : prog (list Z) :=
  match matches with
  | [] => Ret []
  | m :: rest =>
      n ← int m;
      numbers ← int_each rest;
      mret (n :: numbers)
  end.

(** ** The connector *)

(** The fields of [EpsillaSink]. *)
Record EpsillaSink : Type := {
  project_id : string;
  api_key : string;
  db_id : string;
  table_name : string
}.

(** *** Calling a function defined in the class body *)

(** An argument passed at a call: the instance or a string. *)
Inductive pyarg : Type :=
| ArgSelf (self : EpsillaSink)
| ArgStr (s : string).

(** A function as [def] makes it: its positional parameters and its body.
    The body runs only when the call passes as many arguments as there are
    parameters. *)
Record pyfunction (B : Type) : Type := {
  qualname : string;
  parameters : list string;
  fbody : list pyarg -> prog B
}.
Arguments qualname {B} _.
Arguments parameters {B} _.
Arguments fbody {B} _.

Definition plural (n : nat) (one many : string) : string :=
  if Nat.eqb n 1 then one else many.

Definition arity_message (fname : string) (expected given : nat) : string :=
  fname +:+ "() takes " +:+ pretty expected
    +:+ plural expected " positional argument" " positional arguments"
    +:+ " but " +:+ pretty given
    +:+ plural given " was given" " were given".

Definition call_function {B : Type} (f : pyfunction B) (args : list pyarg)
  : prog B :=
  if Nat.eqb (length args) (length (parameters f)) then fbody f args
  else Raise (TypeError (arity_message (qualname f)
                           (length (parameters f)) (length args))).

(** [self.f(args)]: the attribute lookup on the instance binds [self] as
    the first positional argument of the function found in the class. *)
Definition call_method {B : Type} (self : EpsillaSink) (f : pyfunction B)
  (args : list pyarg) : prog B :=
  call_function f (ArgSelf self :: args).

(** *** Properties *)

Definition sink_name (self : EpsillaSink) : string := "EpsillaSink".

Definition required_properties (self : EpsillaSink) : list string :=
  ["project_id"; "api_key"; "db_id"; "table_name"].

Definition optional_properties (self : EpsillaSink) : list string := [].

(** *** validation *)

Definition validation (self : EpsillaSink) : prog bool :=
  try_except
    (_ ← call (NewClient (project_id self) (api_key self));
     let client := {| client_project_id := project_id self;
                      client_api_key := api_key self |} in
     call (ClientValidate client))
    (fun e => Raise (EpsillaConnectionException
       ("Epsilla Cloud connection couldn't be initialized. See exception: "
          +:+ exn_str e)));;
  mret true.

(** *** _get_db *)

Definition _get_db (self : EpsillaSink) : prog Vectordb :=
  _ ← call (NewClient (project_id self) (api_key self));
  let client := {| client_project_id := project_id self;
                   client_api_key := api_key self |} in
  _ ← call (ClientVectordb client (db_id self));
  mret {| db_client := client; db_db_id := db_id self |}.

(** *** _extract_numbers *)

(** The body of [_extract_numbers(input_string)].  [findall] accepts a
    string only. *)
Definition _extract_numbers_body (input_string : pyarg) : prog (list Z) :=
  match input_string with
  | ArgStr s => int_each (findall_digits s)
  | ArgSelf _ => Raise (TypeError "expected string or bytes-like object")
  end.

(** [def _extract_numbers(input_string)], as written in the class body:
    one positional parameter, no [self] and no [@staticmethod]. *)
Definition _extract_numbers : pyfunction (list Z) := {|
  qualname := "EpsillaSink._extract_numbers";
  parameters := ["input_string"];
  fbody := fun args =>
    match args with
    | [input_string] => _extract_numbers_body input_string
    | _ => Raise (TypeError "unreachable")
    end
|}.

(** *** store *)

Definition storing_failed : exn :=
  EpsillaInsertionException "Epsilla storing failed. Try later".

(** The schema passed to [create_table]. *)
Definition table_schema (dimensions : Z) : list table_field :=
  [ {| name := "id"; dataType := "STRING"; dimensions := None |};
    {| name := "vector"; dataType := "VECTOR_FLOAT";
       dimensions := Some dimensions |};
    {| name := "metadata"; dataType := "JSON"; dimensions := None |};
    {| name := "file_entry_id"; dataType := "STRING"; dimensions := None |} ].

(** The dict built for one vector in the loop of [store].  The values are
    evaluated in the order of the dict display. *)
Definition encode (vec : NeumVector.t) : prog data :=
  let id := NeumVector.id vec in
  let vector := NeumVector.vector vec in
  let metadata :=
    if negb (Nat.eqb (size (NeumVector.metadata vec)) 0)
    then NeumVector.metadata vec else ∅ in
  cond ← subscript (NeumVector.metadata vec) "_file_entry_id";
  file_entry_id ←
    (if truthy cond
     then subscript (NeumVector.metadata vec) "_file_entry_id"
     else Ret (PStr ""));
  mret {| data_id := id; data_vector := vector; data_metadata := metadata;
          data_file_entry_id := file_entry_id |}.

(** [for vec in vectors_to_store: ... datas.append(data)]. *)
Fixpoint encode_loop (vectors_to_store : list NeumVector.t)
  (datas : list data) : prog (list data) :=
  match vectors_to_store with
  | [] => Ret datas
  | vec :: rest =>
      data ← encode vec;
      encode_loop rest (datas ++ [data])
  end.

Definition store (self : EpsillaSink) (vectors_to_store : list NeumVector.t)
  : prog (list Z) :=
  db ← _get_db self;
  let table_name := table_name self in
  '(status_code, response) ← call (ListTables db);
  if negb (Z.eqb status_code 200) then Raise storing_failed else
  tables ← subscript_result response;
  status_code ←
    (if negb (contains table_name tables) then
       vec0 ← first_item vectors_to_store;
       let dimensions := len (NeumVector.vector vec0) in
       '(status_code, response) ←
          call (CreateTable db table_name (table_schema dimensions));
       mret status_code
     else mret status_code);
  if negb (Z.eqb status_code 200) then Raise storing_failed else
  datas ← encode_loop vectors_to_store [];
  '(status_code, response) ← call (Insert db table_name datas);
  if negb (Z.eqb status_code 200) then Raise storing_failed else
  message ← subscript_message response;
  call_method self _extract_numbers [ArgStr message].

(** *** search *)

(** [for result in response["result"]: matches.append(...)]. *)
Fixpoint search_loop (results : list match_row)
  (matches : list NeumSearchResult.t) : list NeumSearchResult.t :=
  match results with
  | [] => matches
  | result :: rest =>
      search_loop rest
        (matches ++ [ {| NeumSearchResult.id := row_id result;
                         NeumSearchResult.vector := row_vector result;
                         NeumSearchResult.metadata := row_metadata result;
                         NeumSearchResult.score := row_distance result |} ])
  end.

(** The [filter] parameter is not used by the body: the code that built a
    filter string from it is commented out. *)
Definition search (self : EpsillaSink) (vector : list float)
  (number_of_results : Z) (filter : gmap string pyval)
  : prog (list NeumSearchResult.t) :=
  db ← _get_db self;
  '(status_code, response) ←
     call (Query db (table_name self) "vector" vector number_of_results true);
  if negb (Z.eqb status_code 200) then
    message ← subscript_message response;
    Raise (EpsillaQueryException
             ("Failed to query Epsilla. Exception - " +:+ message))
  else
  results ← subscript_result response;
  mret (search_loop results []).

(** *** info *)

Definition info (self : EpsillaSink) : prog NeumSinkInfo.t :=
  db ← _get_db self;
  '(status_code, response) ← call (Get db (table_name self));
  if negb (Z.eqb status_code 200) then
    message ← subscript_message response;
    Raise (EpsillaIndexInfoException
             ("Failed to get information from Epsilla. Exception - "
                +:+ message))
  else
  results ← subscript_result response;
  mret {| NeumSinkInfo.number_vectors_stored := len results |}.

(** *** delete_vectors_with_file_id *)

Definition deletion_failed : exn :=
  EpsillaInsertionException "Epsilla deletion failed. Try later".

Definition delete_filter (file_id : string) : string :=
  "file_entry_id = " +:+ file_id.

Definition delete_vectors_with_file_id (self : EpsillaSink) (file_id : string)
  : prog bool :=
  db ← _get_db self;
  '(status_code, response) ←
     call (Delete db (table_name self) (delete_filter file_id));
  if negb (Z.eqb status_code 200) then Raise deletion_failed else
  mret true.

(** The lexical items of a filter expression: a word is a maximal run of
    characters that are neither spaces, quotes nor operator characters;
    every space, quote and operator character is an item of its own. *)
Inductive kind : Type := KWord | KSpace | KQuote | KOp.

Definition classify (c : ascii) : kind :=
  if has_char c (String " "%char (String "009"%char
                   (String "010"%char (String "013"%char EmptyString))))
  then KSpace
  else if has_char c (String "'"%char (String double_quote "`"))
  then KQuote
  else if has_char c "=<>!()&|+-*/%,;" then KOp
  else KWord.

Definition word_char (c : ascii) : bool :=
  match classify c with KWord => true | _ => false end.

(** The shape of an expression: the kinds of its items, in order.
    [in_word] tells that the character before was part of a word. *)
Fixpoint shape_from (s : string) (in_word : bool) : list kind :=
  match s with
  | EmptyString => []
  | String c s' =>
      match classify c with
      | KWord =>
          if in_word then shape_from s' true else KWord :: shape_from s' true
      | k => k :: shape_from s' false
      end
  end.

Definition shape (s : string) : list kind := shape_from s false.

(** The shape of the comparison of a column with one word. *)
Definition plain_comparison : list kind := [KWord; KSpace; KOp; KSpace; KWord].

(** An identifier that is one word. *)
Definition plain (file_id : string) : bool :=
  match file_id with
  | EmptyString => false
  | _ => forallb word_char (list_ascii_of_string file_id)
  end.

(** ** Observing a trace *)

(** The answer of a [Vectordb] method that returned: its status code. *)
Definition status_of (ev : event) : option Z :=
  match ev with
  | Ev r a =>
      match r in request R return exn + R -> option Z with
      | ListTables _ | CreateTable _ _ _ | Insert _ _ _
      | Query _ _ _ _ _ _ | Get _ _ | Delete _ _ _ =>
          fun a => match a with inr (sc, _) => Some sc | inl _ => None end
      | _ => fun _ => None
      end a
  end.

(** A backend call that returned a status other than 200. *)
Definition failed (ev : event) : bool :=
  match status_of ev with
  | Some sc => negb (Z.eqb sc 200)
  | None => false
  end.

(** The requests that change what the service stores. *)
Definition mutating (ev : event) : bool :=
  match ev with
  | Ev (CreateTable _ _ _) _ | Ev (Insert _ _ _) _ | Ev (Delete _ _ _) _ => true
  | _ => false
  end.

Definition create_request (ev : event)
  : option (Vectordb * string * list table_field) :=
  match ev with
  | Ev (CreateTable db t fields) _ => Some (db, t, fields)
  | _ => None
  end.

Definition insert_request (ev : event)
  : option (Vectordb * string * list data) :=
  match ev with
  | Ev (Insert db t records) _ => Some (db, t, records)
  | _ => None
  end.

Definition delete_request (ev : event) : option (Vectordb * string * string) :=
  match ev with
  | Ev (Delete db t filter) _ => Some (db, t, filter)
  | _ => None
  end.

Definition query_request (ev : event)
  : option (Vectordb * string * string * list float * Z * bool) :=
  match ev with
  | Ev (Query db t field v limit wd) _ => Some (db, t, field, v, limit, wd)
  | _ => None
  end.

(** What [list_tables] returned. *)
Definition listing_answer (ev : event) : option (Z * body (list string)) :=
  match ev with
  | Ev r a =>
      match r in request R return exn + R -> option (Z * body (list string))
      with
      | ListTables _ =>
          fun a => match a with inr x => Some x | inl _ => None end
      | _ => fun _ => None
      end a
  end.

(** What [insert] returned. *)
Definition insert_answer (ev : event) : option (Z * body unit) :=
  match ev with
  | Ev r a =>
      match r in request R return exn + R -> option (Z * body unit) with
      | Insert _ _ _ =>
          fun a => match a with inr x => Some x | inl _ => None end
      | _ => fun _ => None
      end a
  end.

(** What [query] returned. *)
Definition query_answer (ev : event) : option (Z * body (list match_row)) :=
  match ev with
  | Ev r a =>
      match r in request R return exn + R -> option (Z * body (list match_row))
      with
      | Query _ _ _ _ _ _ =>
          fun a => match a with inr x => Some x | inl _ => None end
      | _ => fun _ => None
      end a
  end.

(** What [delete] returned. *)
Definition delete_answer (ev : event) : option (Z * body unit) :=
  match ev with
  | Ev r a =>
      match r in request R return exn + R -> option (Z * body unit) with
      | Delete _ _ _ =>
          fun a => match a with inr x => Some x | inl _ => None end
      | _ => fun _ => None
      end a
  end.

(** The three components of a run. *)
Definition outcome_of {S A : Type} (x : outcome A * S * list event) : outcome A :=
  fst (fst x).
Definition state_of {S A : Type} (x : outcome A * S * list event) : S :=
  snd (fst x).
Definition trace_of {S A : Type} (x : outcome A * S * list event) : list event :=
  snd x.

(** The handle [_get_db] returns. *)
Definition db_of (self : EpsillaSink) : Vectordb :=
  {| db_client := {| client_project_id := project_id self;
                     client_api_key := api_key self |};
     db_db_id := db_id self |}.

(** ** A scripted service *)

(** A backend for trying the connector on concrete inputs.  Its state is
    the list of the tables that exist; creating a table adds its name; the
    answers are otherwise fixed by a script. *)
Record script : Type := {
  on_validate : exn + pyval;
  on_vectordb : exn + unit;
  on_list_tables : Z;
  on_create_table : Z;
  on_insert : Z * body unit;
  on_query : Z * body (list match_row);
  on_get : Z * body (list data);
  on_delete : Z * body unit
}.

Definition no_body : body unit := {| result := None; message := None |}.

Definition scripted (sc : script) : backend (list string) :=
  fun R r =>
    match r in request R return list string -> (exn + R) * list string with
    | NewClient _ _ => fun s => (inr tt, s)
    | ClientValidate _ => fun s => (on_validate sc, s)
    | ClientVectordb _ _ => fun s => (on_vectordb sc, s)
    | ListTables _ => fun s =>
        (inr (on_list_tables sc, {| result := Some s; message := None |}), s)
    | CreateTable _ t _ => fun s =>
        (inr (on_create_table sc, no_body),
         if Z.eqb (on_create_table sc) 200 then s ++ [t] else s)
    | Insert _ _ _ => fun s => (inr (on_insert sc), s)
    | Query _ _ _ _ _ _ => fun s => (inr (on_query sc), s)
    | Get _ _ => fun s => (inr (on_get sc), s)
    | Delete _ _ _ => fun s => (inr (on_delete sc), s)
    end.

(** Every call succeeds; [insert] confirms with [msg]. *)
Definition all_ok (msg : string) : script := {|
  on_validate := inr (PDict ∅);
  on_vectordb := inr tt;
  on_list_tables := 200;
  on_create_table := 200;
  on_insert := (200, {| result := None; message := Some msg |});
  on_query := (200, {| result := Some []; message := None |});
  on_get := (200, {| result := Some []; message := None |});
  on_delete := (200, no_body)
|}.

Definition example_sink : EpsillaSink := {|
  project_id := "p"; api_key := "k"; db_id := "d"; table_name := "t"
|}.

Definition example_vector (fid : string) : NeumVector.t := {|
  NeumVector.id := "a";
  NeumVector.vector := [PrimFloat.one; PrimFloat.zero];
  NeumVector.metadata := {[ "_file_entry_id" := PStr fid ]}
|}.

(** What [client.validate()] returned. *)
Definition validate_answer (ev : event) : option pyval :=
  match ev with
  | Ev r a =>
      match r in request R return exn + R -> option pyval with
      | ClientValidate _ =>
          fun a => match a with inr v => Some v | inl _ => None end
      | _ => fun _ => None
      end a
  end.

(** A body in which the service reports a status other than 200. *)
Definition reports_failure (body : pyval) : bool :=
  match body with
  | PDict d =>
      match d !! "statusCode" with
      | Some (PInt sc) => negb (Z.eqb sc 200)
      | _ => false
      end
  | _ => false
  end.

(** The service answers [client.validate()] with a body that says the key
    is not valid. *)
Definition key_rejected : script := {|
  on_validate :=
    inr (PDict {[ "statusCode" := PInt 401;
                  "message" := PStr "Invalid API key" ]});
  on_vectordb := inl (ClientException "Invalid API key");
  on_list_tables := 401;
  on_create_table := 401;
  on_insert := (401, no_body);
  on_query := (401, {| result := None; message := None |});
  on_get := (401, {| result := None; message := None |});
  on_delete := (401, no_body)
|}.

(** The exception [validation] raises for the exception [e] caught. *)
Definition connection_failed (e : exn) : exn :=
  EpsillaConnectionException
    ("Epsilla Cloud connection couldn't be initialized. See exception: "
       +:+ exn_str e).

(** The search result that mirrors a match of the backend: same id,
    vector and metadata, and the distance as score. *)
Definition mirror (m : match_row) : NeumSearchResult.t :=
  {| NeumSearchResult.id := row_id m;
     NeumSearchResult.vector := row_vector m;
     NeumSearchResult.metadata := row_metadata m;
     NeumSearchResult.score := row_distance m |}.

(** The claim of C6 as it is written, for one run of [search]: one result
    per match, in order, and at most [k] of them. *)
Definition search_mirrors_within_limit {S : Type} (h : backend S) (s : S)
  (self : EpsillaSink) (v : list float) (k : Z) : Prop :=
  let x := run h (search self v k ∅) s in
  forall ev b rows,
    0 < k ->
    In ev (trace_of x) ->
    query_answer ev = Some (200, b) ->
    result b = Some rows ->
    outcome_of x = Returned (map mirror rows) /\ len (map mirror rows) <= k.

Definition example_match (id : string) : match_row := {|
  row_id := id;
  row_vector := [PrimFloat.one; PrimFloat.zero];
  row_metadata := ∅;
  row_distance := PrimFloat.zero
|}.

(** A service that answers every query with two matches. *)
Definition two_matches : script := {|
  on_validate := inr (PDict ∅);
  on_vectordb := inr tt;
  on_list_tables := 200;
  on_create_table := 200;
  on_insert := (200, no_body);
  on_query := (200, {| result := Some [example_match "a"; example_match "b"];
                       message := None |});
  on_get := (200, {| result := Some []; message := None |});
  on_delete := (200, no_body)
|}.

(** What the loop of [store] builds for a vector that has the key
    ["_file_entry_id"] in its metadata. *)
Definition has_file_entry_id (vec : NeumVector.t) : bool :=
  match NeumVector.metadata vec !! "_file_entry_id" with
  | Some _ => true
  | None => false
  end.

Definition encoded (vec : NeumVector.t) : data :=
  {| data_id := NeumVector.id vec;
     data_vector := NeumVector.vector vec;
     data_metadata := NeumVector.metadata vec;
     data_file_entry_id :=
       match NeumVector.metadata vec !! "_file_entry_id" with
       | Some v => if truthy v then v else PStr ""
       | None => PStr ""
       end |}.

(** A request that changed what the service stores: a creation, an
    insertion or a deletion answered with status 200. *)
Definition wrote (ev : event) : bool :=
  mutating ev &&
  match status_of ev with
  | Some sc => Z.eqb sc 200
  | None => false
  end.

Definition created (ev : event) : bool :=
  match create_request ev with
  | Some _ => wrote ev
  | None => false
  end.

(** A service whose state changes only through such requests: a request
    that only reads, or fails, leaves the state as it was. *)
Definition changes_only_on_writes {S : Type} (h : backend S) : Prop :=
  forall (R : Type) (r : request R) (s : S),
    wrote (Ev r (fst (h R r s))) = false -> snd (h R r s) = s.

(** The claim of C2 as it is written, for one run of [store]: a call of
    the backend that returns a status other than 200 makes [store] raise
    [EpsillaInsertionException] and the state of the service is the one
    before the call. *)
Definition store_failure_leaves_state {S : Type} (h : backend S) (s : S)
  (self : EpsillaSink) (vectors_to_store : list NeumVector.t) : Prop :=
  let x := run h (store self vectors_to_store) s in
  existsb failed (trace_of x) = true ->
  (exists msg, outcome_of x = Raised (EpsillaInsertionException msg)) /\
  state_of x = s.

(** The service is reachable and lists and creates tables, but rejects
    every insertion. *)
Definition insert_rejected : script := {|
  on_validate := inr (PDict ∅);
  on_vectordb := inr tt;
  on_list_tables := 200;
  on_create_table := 200;
  on_insert := (500, {| result := None; message := Some "Internal error" |});
  on_query := (200, {| result := Some []; message := None |});
  on_get := (200, {| result := Some []; message := None |});
  on_delete := (200, no_body)
|}.

(** A vector with empty metadata. *)
Definition bare_vector : NeumVector.t := {|
  NeumVector.id := "a";
  NeumVector.vector := [PrimFloat.one; PrimFloat.zero];
  NeumVector.metadata := ∅
|}.

(** *** The paths of store *)

(** The events of a run of [store]. *)
Definition ev_client (self : EpsillaSink) (a : exn + unit) : event :=
  Ev (NewClient (project_id self) (api_key self)) a.

Definition ev_vectordb (self : EpsillaSink) (a : exn + unit) : event :=
  Ev (ClientVectordb (db_client (db_of self)) (db_id self)) a.

Definition ev_list (self : EpsillaSink) (a : exn + Z * body (list string))
  : event :=
  Ev (ListTables (db_of self)) a.

Definition ev_create (self : EpsillaSink) (dimensions : Z)
  (a : exn + Z * body unit) : event :=
  Ev (CreateTable (db_of self) (table_name self) (table_schema dimensions)) a.

Definition ev_insert (self : EpsillaSink) (datas : list data)
  (a : exn + Z * body unit) : event :=
  Ev (Insert (db_of self) (table_name self) datas) a.

(** [_get_db] went through. *)
Definition connected (self : EpsillaSink) : list event :=
  [ev_client self (inr tt); ev_vectordb self (inr tt)].

(** The second step of [store], given the tables listed: the exception
    that stops the method there, if any, and the requests sent. *)
Inductive provisioning (self : EpsillaSink)
  (vectors_to_store : list NeumVector.t) (tables : list string)
  : option exn -> list event -> Prop :=
| table_present :
    contains (table_name self) tables = true ->
    provisioning self vectors_to_store tables None []
| table_absent_empty_batch :
    contains (table_name self) tables = false ->
    vectors_to_store = [] ->
    provisioning self vectors_to_store tables
      (Some (IndexError "list index out of range")) []
| create_raises vec0 rest e :
    contains (table_name self) tables = false ->
    vectors_to_store = vec0 :: rest ->
    provisioning self vectors_to_store tables (Some e)
      [ev_create self (len (NeumVector.vector vec0)) (inl e)]
| create_fails vec0 rest sc b :
    contains (table_name self) tables = false ->
    vectors_to_store = vec0 :: rest ->
    sc <> 200 ->
    provisioning self vectors_to_store tables (Some storing_failed)
      [ev_create self (len (NeumVector.vector vec0)) (inr (sc, b))]
| create_succeeds vec0 rest b :
    contains (table_name self) tables = false ->
    vectors_to_store = vec0 :: rest ->
    provisioning self vectors_to_store tables None
      [ev_create self (len (NeumVector.vector vec0)) (inr (200, b))].

(** The last steps of [store]: the encoding loop, the insertion and the
    return statement. *)
Inductive inserting (self : EpsillaSink)
  (vectors_to_store : list NeumVector.t)
  : outcome (list Z) -> list event -> Prop :=
| key_missing :
    forallb has_file_entry_id vectors_to_store = false ->
    inserting self vectors_to_store (Raised (KeyError "_file_entry_id")) []
| insert_raises e :
    forallb has_file_entry_id vectors_to_store = true ->
    inserting self vectors_to_store (Raised e)
      [ev_insert self (map encoded vectors_to_store) (inl e)]
| insert_fails sc b :
    forallb has_file_entry_id vectors_to_store = true ->
    sc <> 200 ->
    inserting self vectors_to_store (Raised storing_failed)
      [ev_insert self (map encoded vectors_to_store) (inr (sc, b))]
| insert_without_message b :
    forallb has_file_entry_id vectors_to_store = true ->
    message b = None ->
    inserting self vectors_to_store (Raised (KeyError "message"))
      [ev_insert self (map encoded vectors_to_store) (inr (200, b))]
| insert_confirmed b msg :
    forallb has_file_entry_id vectors_to_store = true ->
    message b = Some msg ->
    inserting self vectors_to_store
      (Raised (TypeError (arity_message "EpsillaSink._extract_numbers" 1 2)))
      [ev_insert self (map encoded vectors_to_store) (inr (200, b))].

(** The outcome and the trace of a run of [store]. *)
Inductive store_run (self : EpsillaSink)
  (vectors_to_store : list NeumVector.t)
  : outcome (list Z) -> list event -> Prop :=
| client_raises e :
    store_run self vectors_to_store (Raised e) [ev_client self (inl e)]
| vectordb_raises e :
    store_run self vectors_to_store (Raised e)
      [ev_client self (inr tt); ev_vectordb self (inl e)]
| list_raises e :
    store_run self vectors_to_store (Raised e)
      (connected self ++ [ev_list self (inl e)])
| list_fails sc b :
    sc <> 200 ->
    store_run self vectors_to_store (Raised storing_failed)
      (connected self ++ [ev_list self (inr (sc, b))])
| list_without_result b :
    result b = None ->
    store_run self vectors_to_store (Raised (KeyError "result"))
      (connected self ++ [ev_list self (inr (200, b))])
| provisioning_stops b tables e tr :
    result b = Some tables ->
    provisioning self vectors_to_store tables (Some e) tr ->
    store_run self vectors_to_store (Raised e)
      (connected self ++ [ev_list self (inr (200, b))] ++ tr)
| provisioning_passes b tables tr1 o tr2 :
    result b = Some tables ->
    provisioning self vectors_to_store tables None tr1 ->
    inserting self vectors_to_store o tr2 ->
    store_run self vectors_to_store o
      (connected self ++ [ev_list self (inr (200, b))] ++ tr1 ++ tr2).

(** The backend, from the state [s], gives the answers of the trace and
    ends in the state [s']. *)
Fixpoint steps {S : Type} (h : backend S) (s : S) (tr : list event) (s' : S)
  : Prop :=
  match tr with
  | [] => s' = s
  | Ev r a :: tr' => fst (h _ r s) = a /\ steps h (snd (h _ r s)) tr' s'
  end.

(** A vector whose metadata has entries but not ["_file_entry_id"]. *)
Definition untagged_vector : NeumVector.t := {|
  NeumVector.id := "b";
  NeumVector.vector := [PrimFloat.one; PrimFloat.zero];
  NeumVector.metadata := {[ "source" := PStr "doc" ]}
|}.

(** A string of digits. *)
Definition all_digits (s : string) : bool :=
  forallb is_digit (list_ascii_of_string s).

(** ** Further observations *)

Definition get_request (ev : event) : option (Vectordb * string) :=
  match ev with
  | Ev (Get db t) _ => Some (db, t)
  | _ => None
  end.

(** What [get] returned. *)
Definition get_answer (ev : event) : option (Z * body (list data)) :=
  match ev with
  | Ev r a =>
      match r in request R return exn + R -> option (Z * body (list data)) with
      | Get _ _ =>
          fun a => match a with inr x => Some x | inl _ => None end
      | _ => fun _ => None
      end a
  end.

(** The exception raised inside a call of the client, if the call
    raised. *)
Definition raised_by (ev : event) : option exn :=
  match ev with
  | Ev _ (inl e) => Some e
  | Ev _ (inr _) => None
  end.

(** The four operations that go through [_get_db]. *)
Inductive operation : Type :=
| OpStore (vectors_to_store : list NeumVector.t)
| OpSearch (vector : list float) (number_of_results : Z)
           (filter : gmap string pyval)
| OpInfo
| OpDelete (file_id : string).

(** The exception an outcome carries, if it is one. *)
Definition raised {A : Type} (o : outcome A) : option exn :=
  match o with
  | Raised e => Some e
  | Returned _ => None
  end.

(** A run of an operation: the exception it ends with, if any, and its
    trace. *)
Definition run_operation {S : Type} (h : backend S) (s : S)
  (self : EpsillaSink) (op : operation) : option exn * list event :=
  match op with
  | OpStore vs =>
      let x := run h (store self vs) s in (raised (outcome_of x), trace_of x)
  | OpSearch v k f =>
      let x := run h (search self v k f) s in
      (raised (outcome_of x), trace_of x)
  | OpInfo =>
      let x := run h (info self) s in (raised (outcome_of x), trace_of x)
  | OpDelete file_id =>
      let x := run h (delete_vectors_with_file_id self file_id) s in
      (raised (outcome_of x), trace_of x)
  end.

(** The service cannot be reached: [client.vectordb] raises. *)
Definition unreachable : script := {|
  on_validate := inl (ClientException "Connection refused");
  on_vectordb := inl (ClientException "Connection refused");
  on_list_tables := 200;
  on_create_table := 200;
  on_insert := (200, no_body);
  on_query := (200, {| result := Some []; message := None |});
  on_get := (200, {| result := Some []; message := None |});
  on_delete := (200, no_body)
|}.

(** The service answers every request on a table with status 404 and a
    message. *)
Definition table_not_found : script := {|
  on_validate := inr (PDict ∅);
  on_vectordb := inr tt;
  on_list_tables := 200;
  on_create_table := 200;
  on_insert := (404, {| result := None; message := Some "Table not found" |});
  on_query := (404, {| result := None; message := Some "Table not found" |});
  on_get := (404, {| result := None; message := Some "Table not found" |});
  on_delete := (404, {| result := None; message := Some "Table not found" |})
|}.

(** The service holds two records in the table. *)
Definition example_data (id : string) : data := {|
  data_id := id;
  data_vector := [PrimFloat.one; PrimFloat.zero];
  data_metadata := {[ "_file_entry_id" := PStr "f1" ]};
  data_file_entry_id := PStr "f1"
|}.

Definition two_records : script := {|
  on_validate := inr (PDict ∅);
  on_vectordb := inr tt;
  on_list_tables := 200;
  on_create_table := 200;
  on_insert := (200, no_body);
  on_query := (200, {| result := Some []; message := None |});
  on_get := (200, {| result := Some [example_data "a"; example_data "b"];
                     message := None |});
  on_delete := (200, no_body)
|}.

(** A vector whose ["_file_entry_id"] is [None]. *)
Definition unfiled_vector : NeumVector.t := {|
  NeumVector.id := "c";
  NeumVector.vector := [PrimFloat.one];
  NeumVector.metadata := {[ "_file_entry_id" := PNone ]}
|}.

(** The characters of the strings of a list, in order. *)
Definition characters (l : list string) : list ascii :=
  flat_map list_ascii_of_string l.

(** A match that has more digits than [int] converts. *)
Definition too_long (m : string) : bool :=
  Nat.ltb max_str_digits (String.length m).

(** * Properties *)

(** ** Runs of composed programs *)

Section Runs.
Context {S : Type} (h : backend S).

Lemma run_bind {A B : Type} (p : prog A) (f : A -> prog B) (s : S) :
  run h (bind p f) s =
  match run h p s with
  | (Returned a, s1, tr1) =>
      let '(o, s2, tr2) := run h (f a) s1 in (o, s2, tr1 ++ tr2)
  | (Raised e, s1, tr1) => (Raised e, s1, tr1)
  end.
Proof.
  revert s. induction p as [a|e|R r k IH]; intros s; simpl.
  - destruct (run h (f a) s) as [[o s2] tr2]. reflexivity.
  - reflexivity.
  - destruct (h R r s) as [a s1]. rewrite IH.
    destruct (run h (k a) s1) as [[[b|e] s2] tr]; [|reflexivity].
    destruct (run h (f b) s2) as [[o s3] tr2]. reflexivity.
Qed.

Lemma run_call {R : Type} (r : request R) (s : S) :
  run h (call r) s =
  (match fst (h R r s) with inl e => Raised e | inr v => Returned v end,
   snd (h R r s), [Ev r (fst (h R r s))]).
Proof.
  unfold call. simpl. destruct (h R r s) as [[e|v] s1]; reflexivity.
Qed.
End Runs.

(** ** delete_vectors_with_file_id *)

(** Case analysis on the answer of the backend to the next request of a
    run: an exception, or a value (of type unit, of any type, or a status
    with a body). *)
Ltac answer_unit h :=
  match goal with
  | |- context [h ?R ?r ?s] =>
      let e := fresh "e" in
      let s1 := fresh "s" in
      destruct (h R r s) as [[e|[]] s1] eqn:?; simpl
  end.

Ltac answer_value h :=
  match goal with
  | |- context [h ?R ?r ?s] =>
      let e := fresh "e" in
      let v := fresh "v" in
      let s1 := fresh "s" in
      destruct (h R r s) as [[e|v] s1] eqn:?; simpl
  end.

Ltac answer_status h :=
  match goal with
  | |- context [h ?R ?r ?s] =>
      let e := fresh "e" in
      let sc := fresh "sc" in
      let b := fresh "b" in
      let s1 := fresh "s" in
      destruct (h R r s) as [[e|[sc b]] s1] eqn:?; simpl
  end.

(** The runs of [delete_vectors_with_file_id]: a client call raises, or
    the delete call returns a status and decides the outcome. *)
Lemma run_delete {S : Type} (h : backend S) (s : S) (self : EpsillaSink)
  (file_id : string) :
  let x := run h (delete_vectors_with_file_id self file_id) s in
  (exists e, outcome_of x = Raised e /\
             omap delete_answer (trace_of x) = []) \/
  (exists sc b,
      omap delete_answer (trace_of x) = [(sc, b)] /\
      omap delete_request (trace_of x) =
        [(db_of self, table_name self, delete_filter file_id)] /\
      outcome_of x =
        if Z.eqb sc 200 then Returned true else Raised deletion_failed).
Proof.
  unfold delete_vectors_with_file_id, _get_db, outcome_of, trace_of; simpl.
  answer_unit h; [left; eauto|].
  answer_unit h; [left; eauto|].
  answer_status h; [left; eauto|].
  right. exists sc, b. destruct (Z.eqb sc 200); simpl; auto.
Qed.

(** C8. Whenever the delete call of [delete_vectors_with_file_id] returns
    status 200 the method returns [True], whatever the body of the answer
    says about matched records; whenever it returns another status the
    method raises [EpsillaInsertionException]; a returned status leaves no
    third outcome. *)
Theorem delete_two_outcomes {S : Type} (h : backend S) (s : S)
  (self : EpsillaSink) (file_id : string) (ev : event) (sc : Z)
  (b : body unit) :
  let x := run h (delete_vectors_with_file_id self file_id) s in
  In ev (trace_of x) ->
  delete_answer ev = Some (sc, b) ->
  (sc = 200 -> outcome_of x = Returned true) /\
  (sc <> 200 ->
   outcome_of x =
     Raised (EpsillaInsertionException "Epsilla deletion failed. Try later")) /\
  (outcome_of x = Returned true \/
   outcome_of x =
     Raised (EpsillaInsertionException "Epsilla deletion failed. Try later")).
Proof.
  intros x Hin Hev.
  assert (Hom : In (sc, b) (omap delete_answer (trace_of x))).
  { apply list_elem_of_In, list_elem_of_omap. exists ev.
    split; [apply list_elem_of_In, Hin | exact Hev]. }
  pose proof (run_delete h s self file_id) as Hrun. cbv zeta in Hrun.
  fold x in Hrun.
  destruct Hrun as [(e & _ & Hnone)|(sc' & b' & Hans & _ & Hout)].
  - rewrite Hnone in Hom. destruct Hom.
  - rewrite Hans in Hom. destruct Hom as [Heq|[]].
    injection Heq as -> ->. rewrite Hout.
    destruct (Z.eqb_spec sc 200); repeat split; intros; auto; congruence.
Qed.

Lemma delete_two_outcomes_witness :
  let x := run (scripted (all_ok "")) (delete_vectors_with_file_id example_sink "f1") [] in
  outcome_of x = Returned true.
Proof.
  refine (proj1 (delete_two_outcomes (scripted (all_ok "")) [] example_sink "f1"
            (Ev (Delete (db_of example_sink) "t" "file_entry_id = f1")
                (inr (200, no_body))) 200 no_body _ _) _).
  - simpl. tauto.
  - reflexivity.
  - reflexivity.
Defined.

(** The filter expression is the fixed text followed by the identifier as
    it is: whatever is appended to the identifier is appended to the
    expression. *)
Lemma delete_filter_app (a b : string) :
  delete_filter (a +:+ b) = delete_filter a +:+ b.
Proof. reflexivity. Qed.

Lemma delete_filter_length (file_id : string) :
  String.length (delete_filter file_id) = (16 + String.length file_id)%nat.
Proof. reflexivity. Qed.

Lemma shape_from_word (s : string) :
  shape_from s true = [] <-> forallb word_char (list_ascii_of_string s) = true.
Proof.
  induction s as [|c s IH]; simpl; [tauto|].
  unfold word_char at 1. destruct (classify c); simpl;
    first [exact IH | split; discriminate].
Qed.

(** An identifier gives the shape of one word exactly when it is one. *)
Lemma shape_plain (file_id : string) :
  shape file_id = [KWord] <-> plain file_id = true.
Proof.
  unfold shape, plain. destruct file_id as [|c s]; simpl.
  - split; discriminate.
  - unfold word_char at 1. destruct (classify c) eqn:Hc; simpl;
      try (split; discriminate).
    rewrite <- shape_from_word. split; [intros H; injection H; auto|].
    intros ->. reflexivity.
Qed.

Lemma delete_filter_shape (file_id : string) :
  shape (delete_filter file_id) = [KWord; KSpace; KOp; KSpace] ++ shape file_id.
Proof. reflexivity. Qed.

(** C10. Once [_get_db] has returned, [delete_vectors_with_file_id] sends
    one delete request, and its filter is the text ["file_entry_id = "]
    immediately followed by [file_id], character for character: nothing
    is quoted or escaped.  So the items of [file_id] are items of the
    expression: the expression has the shape of a comparison with one
    word exactly when [file_id] is one word, and every space, quote or
    operator character in [file_id] gives it another shape. *)
Theorem delete_filter_unquoted {S : Type} (h : backend S) (s : S)
  (self : EpsillaSink) (file_id : string) :
  let x := run h (delete_vectors_with_file_id self file_id) s in
  let a1 := h unit (NewClient (project_id self) (api_key self)) s in
  let a2 := h unit (ClientVectordb (db_client (db_of self)) (db_id self))
              (snd a1) in
  fst a1 = inr tt ->
  fst a2 = inr tt ->
  omap delete_request (trace_of x) =
    [(db_of self, table_name self, "file_entry_id = " +:+ file_id)] /\
  list_ascii_of_string (delete_filter file_id) =
    list_ascii_of_string "file_entry_id = " ++ list_ascii_of_string file_id /\
  shape (delete_filter file_id) =
    [KWord; KSpace; KOp; KSpace] ++ shape file_id /\
  (shape (delete_filter file_id) = plain_comparison <-> plain file_id = true) /\
  (forall c : ascii,
      In c (list_ascii_of_string file_id) ->
      classify c <> KWord ->
      shape (delete_filter file_id) <> plain_comparison).
Proof.
  intros x a1 a2 H1 H2.
  assert (Hplain : shape (delete_filter file_id) = plain_comparison <->
                   plain file_id = true).
  { rewrite delete_filter_shape, <- shape_plain. unfold plain_comparison.
    split; [intros H; injection H; auto | intros ->; reflexivity]. }
  split; [|split; [reflexivity|split; [reflexivity|split; [exact Hplain|]]]].
  - subst x a2 a1. revert H1 H2.
    unfold delete_vectors_with_file_id, _get_db, trace_of, db_of; simpl.
    answer_unit h; [discriminate|].
    answer_unit h; [discriminate|].
    intros _ _. answer_status h; [reflexivity|].
    destruct (Z.eqb sc 200); reflexivity.
  - intros c Hin Hc Hshape. apply Hplain in Hshape.
    unfold plain in Hshape. destruct file_id as [|c0 rest]; [discriminate|].
    rewrite forallb_forall in Hshape. specialize (Hshape c Hin).
    unfold word_char in Hshape. destruct (classify c); congruence.
Qed.

Lemma delete_filter_unquoted_witness :
  let x := run (scripted (all_ok ""))
               (delete_vectors_with_file_id example_sink "x OR 1=1") [] in
  omap delete_request (trace_of x) =
    [(db_of example_sink, "t", "file_entry_id = x OR 1=1")] /\
  shape (delete_filter "x OR 1=1") <> plain_comparison.
Proof.
  pose proof (delete_filter_unquoted (scripted (all_ok "")) [] example_sink
                "x OR 1=1" eq_refl eq_refl) as (Hreq & _ & _ & _ & Hshape).
  split; [exact Hreq|].
  apply (Hshape " "%char); [|discriminate].
  simpl. tauto.
Defined.

(** ** validation *)

(** C7 fails on the code. The service answers [client.validate()] with a
    body that reports status 401 (the key is not valid); the call returns
    that body without raising, [validation] does not look at the value
    and returns [True] instead of raising
    [EpsillaConnectionException]. *)
Theorem validation_true_on_rejected_key :
  let x := run (scripted key_rejected) (validation example_sink) [] in
  let body := PDict {[ "statusCode" := PInt 401;
                       "message" := PStr "Invalid API key" ]} in
  omap validate_answer (trace_of x) = [body] /\
  reports_failure body = true /\
  outcome_of x = Returned true /\
  (forall msg, outcome_of x <> Raised (EpsillaConnectionException msg)).
Proof.
  split; [reflexivity|]. split; [reflexivity|]. split; [reflexivity|].
  intros msg H. vm_compute in H. discriminate H.
Qed.

(** The runs of [validation]: it returns [True] exactly when the
    construction of the client and [client.validate()] both return
    without raising, whatever value [validate] returns.  When either
    raises [e], [validation] raises [EpsillaConnectionException] with a
    message that ends with [str(e)].  It never returns [False], and the
    only requests of a run are these two calls: no table is created,
    nothing is inserted or deleted. *)
Theorem validation_outcomes {S : Type} (h : backend S) (s : S)
  (self : EpsillaSink) :
  let x := run h (validation self) s in
  let client := {| client_project_id := project_id self;
                   client_api_key := api_key self |} in
  let a1 := h unit (NewClient (project_id self) (api_key self)) s in
  let a2 := h pyval (ClientValidate client) (snd a1) in
  outcome_of x =
    match fst a1, fst a2 with
    | inl e, _ => Raised (connection_failed e)
    | inr _, inl e => Raised (connection_failed e)
    | inr _, inr _ => Returned true
    end /\
  (outcome_of x = Returned true <->
   fst a1 = inr tt /\ exists v, fst a2 = inr v) /\
  outcome_of x <> Returned false /\
  forallb (fun ev => negb (mutating ev)) (trace_of x) = true /\
  (length (trace_of x) <= 2)%nat.
Proof.
  intros x client a1 a2. subst x a2 a1 client.
  unfold validation, outcome_of, trace_of; simpl.
  answer_unit h.
  - split; [reflexivity|]. split; [|split; [discriminate|split; [reflexivity|lia]]].
    split; [discriminate|]. intros [H1 _]. discriminate.
  - answer_value h.
    + split; [reflexivity|].
      split; [|split; [discriminate|split; [reflexivity|lia]]].
      split; [discriminate|]. intros [_ [v H2]]. discriminate.
    + split; [reflexivity|].
      split; [|split; [discriminate|split; [reflexivity|lia]]].
      split; eauto.
Qed.

(** ** search *)

Lemma search_loop_spec (results : list match_row)
  (matches : list NeumSearchResult.t) :
  search_loop results matches =
  matches ++ map (fun m => {| NeumSearchResult.id := row_id m;
                              NeumSearchResult.vector := row_vector m;
                              NeumSearchResult.metadata := row_metadata m;
                              NeumSearchResult.score := row_distance m |})
                 results.
Proof.
  revert matches. induction results as [|r rest IH]; intros matches; simpl.
  - symmetry. apply app_nil_r.
  - rewrite IH, <- app_assoc. reflexivity.
Qed.

(** The runs of [search]. *)
Lemma run_search {S : Type} (h : backend S) (s : S) (self : EpsillaSink)
  (v : list float) (k : Z) (filter : gmap string pyval) :
  let x := run h (search self v k filter) s in
  (omap query_request (trace_of x) = [] /\
   omap query_answer (trace_of x) = []) \/
  (omap query_request (trace_of x) =
     [(db_of self, table_name self, "vector", v, k, true)] /\
   (omap query_answer (trace_of x) = [] \/
    exists sc b,
      omap query_answer (trace_of x) = [(sc, b)] /\
      outcome_of x =
        if negb (Z.eqb sc 200) then
          match message b with
          | Some msg => Raised (EpsillaQueryException
                                  ("Failed to query Epsilla. Exception - "
                                     +:+ msg))
          | None => Raised (KeyError "message")
          end
        else
          match result b with
          | Some rows => Returned (search_loop rows [])
          | None => Raised (KeyError "result")
          end)).
Proof.
  unfold search, _get_db, subscript_result, subscript_message,
    outcome_of, trace_of; simpl.
  answer_unit h; [left; auto|].
  answer_unit h; [left; auto|].
  answer_status h; [right; auto|].
  right.
  destruct (Z.eqb sc 200) eqn:Esc, (message b) eqn:Emsg, (result b) eqn:Eres;
    simpl;
    (split; [reflexivity|]; right; exists sc, b;
     rewrite ?Esc, ?Emsg, ?Eres; simpl; auto).
Qed.

(** C5. The filter passed to [search] has no effect: with any two filters
    the method is the same program, so against any backend in any state it
    sends the same requests, gets the same answers and ends the same way;
    the query, when one is sent, is the one for the table, the field
    ["vector"], the vector, the limit and distances wanted. *)
Theorem search_ignores_filter {S : Type} (h : backend S) (s : S)
  (self : EpsillaSink) (v : list float) (k : Z)
  (f1 f2 : gmap string pyval) :
  search self v k f1 = search self v k f2 /\
  run h (search self v k f1) s = run h (search self v k f2) s /\
  (omap query_request (trace_of (run h (search self v k f1) s)) = [] \/
   omap query_request (trace_of (run h (search self v k f1) s)) =
     [(db_of self, table_name self, "vector", v, k, true)]).
Proof.
  split; [reflexivity|]. split; [reflexivity|].
  destruct (run_search h s self v k f1) as [[H _]|[H _]]; auto.
Qed.

Lemma in_omap {A B : Type} (f : A -> option B) (l : list A) (a : A) (b : B) :
  In a l -> f a = Some b -> In b (omap f l).
Proof.
  intros Hin Hf. apply list_elem_of_In, list_elem_of_omap.
  exists a. split; [apply list_elem_of_In, Hin | exact Hf].
Qed.

(** C6, as written, fails: asked for one result from a service that
    answers with two matches, [search] returns both. *)
Lemma search_exceeds_limit :
  ~ search_mirrors_within_limit (scripted two_matches) [] example_sink
      [PrimFloat.one; PrimFloat.zero] 1.
Proof.
  intros H.
  destruct (H (Ev (Query (db_of example_sink) "t" "vector"
                         [PrimFloat.one; PrimFloat.zero] 1 true)
                  (inr (on_query two_matches)))
              {| result := Some [example_match "a"; example_match "b"];
                 message := None |}
              [example_match "a"; example_match "b"]) as [_ Hlen].
  - lia.
  - simpl. tauto.
  - reflexivity.
  - reflexivity.
  - vm_compute in Hlen. apply Hlen. reflexivity.
Qed.

(** C6, amended. When the query of [search] returns status 200 with the
    matches [rows], [search] returns one result per match, in the order of
    [rows], each with the id, vector and metadata of its match and the
    distance as score.  The method does not cut the list: there are as
    many results as matches, hence at most [k] when the backend returned
    at most [k] matches. *)
Theorem search_mirrors_matches {S : Type} (h : backend S) (s : S)
  (self : EpsillaSink) (v : list float) (k : Z) (filter : gmap string pyval)
  (ev : event) (b : body (list match_row)) (rows : list match_row) :
  let x := run h (search self v k filter) s in
  In ev (trace_of x) ->
  query_answer ev = Some (200, b) ->
  result b = Some rows ->
  outcome_of x = Returned (map mirror rows) /\
  (forall i : nat, map mirror rows !! i = mirror <$> rows !! i) /\
  len (map mirror rows) = len rows /\
  (len rows <= k -> len (map mirror rows) <= k).
Proof.
  intros x Hin Hev Hres.
  pose proof (in_omap _ _ _ _ Hin Hev) as Hom.
  pose proof (run_search h s self v k filter) as Hrun. cbv zeta in Hrun.
  fold x in Hrun.
  assert (Hout : outcome_of x = Returned (map mirror rows)).
  { destruct Hrun as [[_ Hnone]|[_ [Hnone|(sc & b' & Hans & Hout)]]];
      try (rewrite Hnone in Hom; destruct Hom).
    rewrite Hans in Hom. destruct Hom as [Heq|[]]. injection Heq as -> ->.
    rewrite Hout, Hres. simpl. rewrite search_loop_spec. reflexivity. }
  split; [exact Hout|]. split; [intros i; apply list_lookup_fmap|].
  unfold len. rewrite length_map. split; [reflexivity|auto].
Qed.

Lemma search_mirrors_matches_witness :
  let x := run (scripted two_matches)
               (search example_sink [PrimFloat.one; PrimFloat.zero] 2 ∅) [] in
  outcome_of x = Returned [mirror (example_match "a"); mirror (example_match "b")].
Proof.
  refine (proj1 (search_mirrors_matches (scripted two_matches) [] example_sink
            [PrimFloat.one; PrimFloat.zero] 2 ∅
            (Ev (Query (db_of example_sink) "t" "vector"
                       [PrimFloat.one; PrimFloat.zero] 2 true)
                (inr (on_query two_matches)))
            {| result := Some [example_match "a"; example_match "b"];
               message := None |}
            [example_match "a"; example_match "b"] _ _ _)).
  - simpl. tauto.
  - reflexivity.
  - reflexivity.
Defined.

(** ** store *)

(** *** The encoding loop *)

Lemma encode_spec (vec : NeumVector.t) :
  encode vec =
  if has_file_entry_id vec then Ret (encoded vec)
  else Raise (KeyError "_file_entry_id").
Proof.
  unfold encode, encoded, has_file_entry_id, subscript.
  destruct (NeumVector.metadata vec !! "_file_entry_id") as [v|] eqn:Hv;
    [|reflexivity].
  simpl. destruct (truthy v); simpl.
  - destruct (size (NeumVector.metadata vec)) eqn:Hsize; simpl; [|reflexivity].
    apply map_size_empty_iff in Hsize. rewrite Hsize in Hv.
    rewrite lookup_empty in Hv. discriminate.
  - destruct (size (NeumVector.metadata vec)) eqn:Hsize; simpl; [|reflexivity].
    apply map_size_empty_iff in Hsize. rewrite Hsize in Hv.
    rewrite lookup_empty in Hv. discriminate.
Qed.

Lemma encode_loop_spec (vectors_to_store : list NeumVector.t)
  (datas : list data) :
  encode_loop vectors_to_store datas =
  if forallb has_file_entry_id vectors_to_store
  then Ret (datas ++ map encoded vectors_to_store)
  else Raise (KeyError "_file_entry_id").
Proof.
  revert datas.
  induction vectors_to_store as [|vec rest IH]; intros datas; simpl.
  - rewrite app_nil_r. reflexivity.
  - rewrite encode_spec. destruct (has_file_entry_id vec); simpl.
    + change (bind (Ret (encoded vec))
                (fun data => encode_loop rest (datas ++ [data])))
        with (encode_loop rest (datas ++ [encoded vec])).
      rewrite IH, <- app_assoc. reflexivity.
    + reflexivity.
Qed.

(** A vector without the key ["_file_entry_id"] stops the loop of [store]
    with a [KeyError]; nothing is substituted for the missing value. *)
Lemma encode_missing_key (vec : NeumVector.t) :
  NeumVector.metadata vec !! "_file_entry_id" = None ->
  encode vec = Raise (KeyError "_file_entry_id").
Proof.
  intros H. rewrite encode_spec. unfold has_file_entry_id. rewrite H.
  reflexivity.
Qed.

(** *** The runs of store *)

Lemma run_steps {S A : Type} (h : backend S) (p : prog A) (s : S) :
  steps h s (trace_of (run h p s)) (state_of (run h p s)).
Proof.
  revert s. induction p as [a|e|R r k IH]; intros s; simpl; try reflexivity.
  unfold trace_of, state_of in *.
  destruct (h R r s) as [a s1] eqn:Ha. specialize (IH a s1).
  destruct (run h (k a) s1) as [[o s2] tr]. simpl in *.
  rewrite Ha. simpl. auto.
Qed.

(** The insertion phase of a run, after the provisioning [Hprov] with the
    trace [tr1]. *)
Ltac insertion h tr1 Hprov :=
  match goal with
  | Ekeys : forallb has_file_entry_id _ = true |- _ =>
      let e := fresh "e" in
      let sc := fresh "sc" in
      let b := fresh "b" in
      let s1 := fresh "s" in
      let Emsg := fresh "Emsg" in
      let Hsc := fresh "Hsc" in
      match goal with
      | |- context [h ?R ?r ?s] =>
          destruct (h R r s) as [[e|[sc b]] s1] eqn:?; simpl;
          [ eapply (provisioning_passes _ _ _ _ tr1 _ [_]);
            [eassumption | exact Hprov | apply insert_raises; exact Ekeys]
          | destruct (Z.eqb_spec sc 200) as [->|Hsc]; simpl;
            [ destruct (message b) as [?msg|] eqn:Emsg; simpl;
              [ eapply (provisioning_passes _ _ _ _ tr1 _ [_]);
                [eassumption | exact Hprov
                | eapply insert_confirmed; [exact Ekeys | exact Emsg]]
              | eapply (provisioning_passes _ _ _ _ tr1 _ [_]);
                [eassumption | exact Hprov
                | apply insert_without_message; [exact Ekeys | exact Emsg]] ]
            | eapply (provisioning_passes _ _ _ _ tr1 _ [_]);
              [eassumption | exact Hprov
              | apply insert_fails; [exact Ekeys | exact Hsc]] ] ]
      end
  | Ekeys : forallb has_file_entry_id _ = false |- _ =>
      eapply (provisioning_passes _ _ _ _ tr1 _ []);
      [eassumption | exact Hprov | apply key_missing; exact Ekeys]
  end.

Lemma run_store_paths {S : Type} (h : backend S) (s : S) (self : EpsillaSink)
  (vectors_to_store : list NeumVector.t) :
  let x := run h (store self vectors_to_store) s in
  store_run self vectors_to_store (outcome_of x) (trace_of x).
Proof.
  unfold store, _get_db, subscript_result, subscript_message,
    outcome_of, trace_of.
  rewrite encode_loop_spec.
  destruct (forallb has_file_entry_id vectors_to_store) eqn:Ekeys; simpl.
  all: answer_unit h; [apply client_raises|].
  all: answer_unit h; [apply vectordb_raises|].
  all: answer_status h; [apply list_raises|].
  all: destruct (Z.eqb_spec sc 200) as [->|Hsc]; simpl;
      [|apply list_fails; exact Hsc].
  all: destruct (result b) as [tables|] eqn:Eres; simpl;
      [|apply list_without_result; exact Eres].
  all: destruct (contains (table_name self) tables) eqn:Ein; simpl.
  all: try (insertion h (@nil event) (table_present self vectors_to_store tables Ein)).
  all: destruct vectors_to_store as [|vec0 rest] eqn:Evs; simpl.
  all: try (eapply (provisioning_stops _ _ _ _ _ []);
            [eassumption | apply table_absent_empty_batch; [exact Ein | reflexivity]]).
  all: answer_status h;
    [ eapply (provisioning_stops _ _ _ _ _ [_]);
      [eassumption | eapply create_raises; [exact Ein | reflexivity]] | ].
  all: destruct (Z.eqb_spec sc 200) as [->|Hsc]; simpl;
    [ | eapply (provisioning_stops _ _ _ _ _ [_]);
        [eassumption | eapply create_fails; [exact Ein | reflexivity | exact Hsc]] ].
  all: insertion h [ev_create self (len (NeumVector.vector vec0)) (inr (200, b0))]
         (create_succeeds self (vec0 :: rest) tables vec0 rest b0 Ein eq_refl).
Qed.

(** Unfolds the events of a run of [store]. *)
Ltac events :=
  unfold connected, ev_client, ev_vectordb, ev_list, ev_create, ev_insert in *;
  simpl in *.

(** The tables listed in a run of [store] that got a listing. *)
Lemma store_listing {S : Type} (h : backend S) (s : S) (self : EpsillaSink)
  (vectors_to_store : list NeumVector.t) (ev : event)
  (b : body (list string)) (tables : list string) :
  let x := run h (store self vectors_to_store) s in
  In ev (trace_of x) ->
  listing_answer ev = Some (200, b) ->
  result b = Some tables ->
  exists e_or_none tr1,
    provisioning self vectors_to_store tables e_or_none tr1 /\
    match e_or_none with
    | Some e =>
        outcome_of x = Raised e /\
        trace_of x = connected self ++ [ev_list self (inr (200, b))] ++ tr1
    | None =>
        exists tr2,
          inserting self vectors_to_store (outcome_of x) tr2 /\
          trace_of x =
            connected self ++ [ev_list self (inr (200, b))] ++ tr1 ++ tr2
    end.
Proof.
  intros x Hin Hev Hres.
  pose proof (in_omap _ _ _ _ Hin Hev) as Hom. clear Hin Hev.
  pose proof (run_store_paths h s self vectors_to_store) as Hp.
  cbv zeta in Hp. fold x in Hp.
  destruct Hp as [e|e|e|sc b' Hsc|b' Hnone|b' tables' e tr Hres' Hprov
                  |b' tables' tr1 o tr2 Hres' Hprov Hins].
  1-5: events; try tauto.
  - destruct Hom as [Heq|[]]. injection Heq as ->. congruence.
  - destruct Hom as [Heq|[]]. congruence.
  - assert (b' = b /\ tables' = tables) as [-> ->].
    { destruct Hprov; events; destruct Hom as [Heq|[]];
        injection Heq as ->; split; congruence. }
    exists (Some e), tr. auto.
  - assert (b' = b /\ tables' = tables) as [-> ->].
    { destruct Hprov, Hins; events; destruct Hom as [Heq|[]];
        injection Heq as ->; split; congruence. }
    exists None, tr1. split; [exact Hprov|]. exists tr2. auto.
Qed.

(** C4. For a batch with first record [vec], when the listing returns
    status 200 and the tables [tables]: if the name of the target table is
    not among them, [store] sends one creation request, for that name,
    with the four columns [id] (STRING), [vector] (VECTOR_FLOAT, of the
    length of the vector of [vec]), [metadata] (JSON) and [file_entry_id]
    (STRING); if the name is among them, it sends no creation request. *)
Theorem store_creates_absent_table {S : Type} (h : backend S) (s : S)
  (self : EpsillaSink) (vec : NeumVector.t) (vecs : list NeumVector.t)
  (ev : event) (b : body (list string)) (tables : list string) :
  let x := run h (store self (vec :: vecs)) s in
  In ev (trace_of x) ->
  listing_answer ev = Some (200, b) ->
  result b = Some tables ->
  omap create_request (trace_of x) =
    if contains (table_name self) tables then []
    else [(db_of self, table_name self,
           [ {| name := "id"; dataType := "STRING"; dimensions := None |};
             {| name := "vector"; dataType := "VECTOR_FLOAT";
                dimensions := Some (len (NeumVector.vector vec)) |};
             {| name := "metadata"; dataType := "JSON"; dimensions := None |};
             {| name := "file_entry_id"; dataType := "STRING";
                dimensions := None |} ])].
Proof.
  intros x Hin Hev Hres.
  destruct (store_listing h s self (vec :: vecs) ev b tables Hin Hev Hres)
    as (e_or_none & tr1 & Hprov & Hrun).
  fold x in Hrun.
  destruct Hprov as [Ein|Ein Hvs|vec0 rest e Ein Hvs|vec0 rest sc b' Ein Hvs Hsc
                     |vec0 rest b' Ein Hvs];
    try discriminate Hvs; try (injection Hvs as <- <-); rewrite Ein.
  2, 3: destruct Hrun as [_ ->]; reflexivity.
  all: destruct Hrun as (tr2 & Hins & ->); destruct Hins; reflexivity.
Qed.

Lemma store_creates_absent_table_witness :
  let x := run (scripted (all_ok "1 objects inserted"))
               (store example_sink [example_vector "f1"]) [] in
  omap create_request (trace_of x) =
    [(db_of example_sink, "t", table_schema 2)].
Proof.
  refine (store_creates_absent_table (scripted (all_ok "1 objects inserted"))
            [] example_sink (example_vector "f1") []
            (Ev (ListTables (db_of example_sink))
                (inr (200, {| result := Some []; message := None |})))
            {| result := Some []; message := None |} [] _ _ _).
  - vm_compute. tauto.
  - reflexivity.
  - reflexivity.
Defined.

(** C9. With an empty batch, when the listing returns status 200: if the
    target table is listed, [store] gets past the provisioning step
    without touching the first record: it sends no creation request and
    one insertion request, with no records;
    if the table is not listed, it raises [IndexError] on the first record
    and the listing is the last request of the run: no creation and no
    insertion is sent. *)
Theorem store_empty_batch {S : Type} (h : backend S) (s : S)
  (self : EpsillaSink) (ev : event) (b : body (list string))
  (tables : list string) :
  let x := run h (store self []) s in
  In ev (trace_of x) ->
  listing_answer ev = Some (200, b) ->
  result b = Some tables ->
  if contains (table_name self) tables then
    omap insert_request (trace_of x) = [(db_of self, table_name self, [])] /\
    omap create_request (trace_of x) = []
  else
    outcome_of x = Raised (IndexError "list index out of range") /\
    trace_of x = connected self ++ [ev_list self (inr (200, b))] /\
    forallb (fun ev => negb (mutating ev)) (trace_of x) = true.
Proof.
  intros x Hin Hev Hres.
  destruct (store_listing h s self [] ev b tables Hin Hev Hres)
    as (e_or_none & tr1 & Hprov & Hrun).
  fold x in Hrun.
  destruct Hprov as [Ein|Ein Hvs|vec0 rest e Ein Hvs|vec0 rest sc b' Ein Hvs Hsc
                     |vec0 rest b' Ein Hvs];
    try discriminate Hvs; rewrite Ein.
  - destruct Hrun as (tr2 & Hins & ->).
    destruct Hins as [Hk|e Hk|sc b' Hk Hsc|b' Hk Hmsg|b' msg Hk Hmsg];
      try discriminate Hk; split; reflexivity.
  - destruct Hrun as [-> ->]. repeat split.
Qed.

Lemma store_empty_batch_witness :
  let x := run (scripted (all_ok "0 objects inserted"))
               (store example_sink []) [] in
  outcome_of x = Raised (IndexError "list index out of range") /\
  trace_of x =
    connected example_sink ++
    [ev_list example_sink (inr (200, {| result := Some []; message := None |}))] /\
  forallb (fun ev => negb (mutating ev)) (trace_of x) = true.
Proof.
  refine (store_empty_batch (scripted (all_ok "0 objects inserted"))
            [] example_sink
            (Ev (ListTables (db_of example_sink))
                (inr (200, {| result := Some []; message := None |})))
            {| result := Some []; message := None |} [] _ _ _).
  - vm_compute. tauto.
  - reflexivity.
  - reflexivity.
Defined.

(** *** Failures and the state of the service *)

Lemma steps_app {S : Type} (h : backend S) (tr1 tr2 : list event) (s s' : S) :
  steps h s (tr1 ++ tr2) s' ->
  exists s1, steps h s tr1 s1 /\ steps h s1 tr2 s'.
Proof.
  revert s. induction tr1 as [|[R r a] tr1 IH]; intros s; simpl.
  - intros H. exists s. auto.
  - intros [Ha H]. destruct (IH _ H) as (s1 & H1 & H2). exists s1. auto.
Qed.

Lemma steps_quiet {S : Type} (h : backend S) (tr : list event) (s s' : S) :
  changes_only_on_writes h ->
  steps h s tr s' ->
  existsb wrote tr = false ->
  s' = s.
Proof.
  intros Hq. revert s. induction tr as [|[R r a] tr IH]; intros s; simpl.
  - auto.
  - intros [Ha H] Hw. apply orb_false_iff in Hw as [Hw1 Hw2].
    rewrite (IH _ H Hw2). apply Hq. rewrite Ha. exact Hw1.
Qed.


Lemma steps_one_write {S : Type} (h : backend S) (pre post : list event)
  {R : Type} (r : request R) (a : exn + R) (s s' : S) :
  changes_only_on_writes h ->
  steps h s (pre ++ Ev r a :: post) s' ->
  existsb wrote pre = false ->
  existsb wrote post = false ->
  s' = snd (h R r s).
Proof.
  intros Hq Hs Hpre Hpost.
  apply steps_app in Hs as (s1 & H1 & H2).
  apply (steps_quiet h pre s s1 Hq H1) in Hpre. subst s1.
  destruct H2 as [_ H2]. exact (steps_quiet h post _ s' Hq H2 Hpost).
Qed.

(** Unfolds the observations of the events of a run of [store]. *)
Ltac observe :=
  unfold connected, ev_client, ev_vectordb, ev_list, ev_create, ev_insert,
    failed, created in *;
  unfold wrote in *;
  unfold status_of, mutating, create_request in *;
  simpl in *.

(** C2, as written, fails: the table is absent, [store] creates it, the
    insertion is rejected; [store] raises [EpsillaInsertionException] and
    the table it created is still there. *)
Lemma store_failure_keeps_created_table :
  ~ store_failure_leaves_state (scripted insert_rejected) []
      example_sink [example_vector "f1"].
Proof.
  intros H. destruct H as [_ Hstate].
  - vm_compute. reflexivity.
  - vm_compute in Hstate. discriminate Hstate.
Qed.

(** C2, amended. Whenever a call of [store] to the backend returns a
    status other than 200, [store] raises [EpsillaInsertionException],
    that call is the last request of the run and the only one that failed,
    and no insertion has been answered with status 200.  [store] undoes
    nothing: against a service whose state changes only through creations,
    insertions and deletions answered with status 200, the state after the
    exception is the one before the call when the listing or the creation
    failed, and when the insertion failed for a table that was listed;
    when the insertion failed after [store] had created the table, the
    state is the one the creation left, with the new table. *)
Theorem store_failure_raises {S : Type} (h : backend S) (s : S)
  (self : EpsillaSink) (vectors_to_store : list NeumVector.t) :
  let x := run h (store self vectors_to_store) s in
  existsb failed (trace_of x) = true ->
  outcome_of x =
    Raised (EpsillaInsertionException "Epsilla storing failed. Try later") /\
  (exists tr0 ev,
      trace_of x = tr0 ++ [ev] /\ failed ev = true /\
      existsb failed tr0 = false) /\
  forallb (fun ev => negb (wrote ev) || created ev) (trace_of x) = true /\
  (changes_only_on_writes h ->
   state_of x =
     match vectors_to_store with
     | vec0 :: _ =>
         if existsb created (trace_of x)
         then snd (h _ (CreateTable (db_of self) (table_name self)
                          (table_schema (len (NeumVector.vector vec0)))) s)
         else s
     | [] => s
     end).
Proof.
  intros x Hfailed.
  pose proof (run_store_paths h s self vectors_to_store) as Hp.
  pose proof (run_steps h (store self vectors_to_store) s) as Hs.
  cbv zeta in Hp. fold x in Hp, Hs. clearbody x.
  destruct x as [[o st] tr0].
  unfold outcome_of, trace_of, state_of in *; simpl in Hp, Hs, Hfailed |- *.
  destruct Hp as [e|e|e|sc b' Hsc|b' Hnone|b' tables' e tr Hres' Hprov
                  |b' tables' tr1 o tr2 Hres' Hprov Hins].
  1-3, 5: observe; discriminate Hfailed.
  - apply Z.eqb_neq in Hsc.
    split; [reflexivity|]. split; [|split].
    + exists (connected self), (ev_list self (inr (sc, b'))).
      observe. rewrite Hsc. auto.
    + reflexivity.
    + intros Hq.
      apply (steps_quiet h _ s) in Hs; [|exact Hq|reflexivity]. subst st.
      observe. destruct vectors_to_store; reflexivity.
  - inversion Hprov as [Ein|Ein Hvs|vec0 rest e' Ein Hvs
                         |vec0 rest sc b'' Ein Hvs Hsc|vec0 rest b'' Ein Hvs];
      subst; try (observe; discriminate Hfailed).
    apply Z.eqb_neq in Hsc. clear Hprov.
    split; [reflexivity|]. split; [|split].
    + exists (connected self ++ [ev_list self (inr (200, b'))]),
        (ev_create self (len (NeumVector.vector vec0)) (inr (sc, b''))).
      observe. rewrite Hsc. auto.
    + observe. rewrite Hsc. reflexivity.
    + intros Hq.
      apply (steps_quiet h _ s) in Hs;
        [|exact Hq|observe; rewrite Hsc; reflexivity]. subst st.
      observe. rewrite Hsc. reflexivity.
  - destruct Hins as [Hk|e Hk|sc b'' Hk Hsc|b'' Hk Hmsg|b'' msg Hk Hmsg].
    1, 2, 4, 5:
      inversion Hprov; subst; observe; discriminate Hfailed.
    apply Z.eqb_neq in Hsc.
    inversion Hprov as [Ein|Ein Hvs|vec0 rest e Ein Hvs
                        |vec0 rest sc' b3 Ein Hvs Hsc'|vec0 rest b3 Ein Hvs];
      subst; clear Hprov.
    + split; [reflexivity|]. split; [|split].
      * exists (connected self ++ [ev_list self (inr (200, b'))]),
          (ev_insert self (map encoded vectors_to_store) (inr (sc, b''))).
        observe. rewrite Hsc. auto.
      * observe. rewrite Hsc. reflexivity.
      * intros Hq.
        apply (steps_quiet h _ s) in Hs;
          [|exact Hq|observe; rewrite Hsc; reflexivity]. subst st.
        observe. destruct vectors_to_store; reflexivity.
    + split; [reflexivity|]. split; [|split].
      * exists (connected self ++ [ev_list self (inr (200, b'))]
                  ++ [ev_create self (len (NeumVector.vector vec0))
                        (inr (200, b3))]),
          (ev_insert self (map encoded (vec0 :: rest)) (inr (sc, b''))).
        observe. rewrite Hsc. auto.
      * observe. rewrite Hsc. reflexivity.
      * intros Hq.
        apply (steps_one_write h
                 (connected self ++ [ev_list self (inr (200, b'))])
                 [ev_insert self (map encoded (vec0 :: rest)) (inr (sc, b''))]
                 (CreateTable (db_of self) (table_name self)
                    (table_schema (len (NeumVector.vector vec0))))
                 (inr (200, b3)) s st) in Hs;
          [|exact Hq|reflexivity|observe; rewrite Hsc; reflexivity].
        subst st. observe. reflexivity.
Qed.

Lemma scripted_changes_only_on_writes (sc : script) :
  changes_only_on_writes (scripted sc).
Proof.
  intros R r s. destruct r; simpl; try reflexivity.
  unfold wrote, status_of. simpl.
  destruct (Z.eqb (on_create_table sc) 200); [discriminate|reflexivity].
Qed.

Lemma store_failure_raises_witness :
  let x := run (scripted insert_rejected)
               (store example_sink [example_vector "f1"]) [] in
  existsb failed (trace_of x) = true /\
  outcome_of x =
    Raised (EpsillaInsertionException "Epsilla storing failed. Try later") /\
  state_of x = ["t"].
Proof.
  split; [reflexivity|].
  pose proof (store_failure_raises (scripted insert_rejected) [] example_sink
                [example_vector "f1"] eq_refl) as (Hout & _ & _ & Hstate).
  split; [exact Hout|].
  exact (Hstate (scripted_changes_only_on_writes insert_rejected)).
Defined.

(** *** The return statement *)

Lemma all_digits_snoc (s : string) (c : ascii) :
  all_digits s = true -> is_digit c = true ->
  all_digits (s +:+ String c EmptyString) = true.
Proof.
  unfold all_digits. induction s as [|d s IH]; simpl; intros Hs Hc.
  - rewrite Hc. reflexivity.
  - apply andb_true_iff in Hs as [Hd Hs]. rewrite Hd. simpl. auto.
Qed.

(** Every match of [findall(r'\d+', s)] is a non-empty string of digits. *)
Lemma findall_digits_from_matches (s cur : string) :
  all_digits cur = true ->
  Forall (fun m => m <> EmptyString /\ all_digits m = true)
         (findall_digits_from s cur).
Proof.
  revert cur. induction s as [|c s IH]; intros cur Hcur; simpl.
  - destruct cur; constructor; [split; [discriminate|exact Hcur]|constructor].
  - destruct (is_digit c) eqn:Hc.
    + apply IH, all_digits_snoc; assumption.
    + destruct cur.
      * apply IH. reflexivity.
      * constructor; [split; [discriminate|exact Hcur]|]. apply IH. reflexivity.
Qed.

(** A string without digits has no match. *)
Lemma findall_digits_none (s : string) :
  existsb is_digit (list_ascii_of_string s) = false ->
  findall_digits s = [].
Proof.
  unfold findall_digits. induction s as [|c s IH]; simpl; intros H.
  - reflexivity.
  - apply orb_false_iff in H as [Hc Hs]. rewrite Hc. auto.
Qed.

(** Called as a plain function, [_extract_numbers] gives the integers of
    the message. *)
Lemma _extract_numbers_plain_call :
  call_function _extract_numbers [ArgStr "3 objects inserted into segment 5"]
  = Ret [3; 5].
Proof. reflexivity. Qed.

(** Called on the instance, as [store] calls it, [_extract_numbers] gets
    two arguments for its one parameter. *)
Lemma _extract_numbers_method_call (self : EpsillaSink) (msg : string) :
  call_method self _extract_numbers [ArgStr msg] =
  Raise (TypeError
    "EpsillaSink._extract_numbers() takes 1 positional argument but 2 were given").
Proof. reflexivity. Qed.

(** [store] has no run that returns. *)
Lemma store_never_returns {S : Type} (h : backend S) (s : S)
  (self : EpsillaSink) (vectors_to_store : list NeumVector.t) :
  exists e, outcome_of (run h (store self vectors_to_store) s) = Raised e.
Proof.
  pose proof (run_store_paths h s self vectors_to_store) as Hp.
  cbv zeta in Hp.
  destruct (run h (store self vectors_to_store) s) as [[o st] tr].
  unfold outcome_of, trace_of in *; simpl in *.
  destruct Hp as [e|e|e|sc b Hsc|b Hnone|b tables e tr Hres Hprov
                  |b tables tr1 o tr2 Hres Hprov Hins]; eauto.
  destruct Hins; eauto.
Qed.

(** A batch with a record that lacks the key ["_file_entry_id"] is never
    inserted, whatever the backend answers. *)
Lemma store_missing_key_sends_no_insert {S : Type} (h : backend S) (s : S)
  (self : EpsillaSink) (vectors_to_store : list NeumVector.t) :
  forallb has_file_entry_id vectors_to_store = false ->
  omap insert_request (trace_of (run h (store self vectors_to_store) s)) = [].
Proof.
  intros Hkeys.
  pose proof (run_store_paths h s self vectors_to_store) as Hp.
  cbv zeta in Hp.
  destruct (run h (store self vectors_to_store) s) as [[o st] tr].
  unfold outcome_of, trace_of in *; simpl in *.
  destruct Hp as [e|e|e|sc b Hsc|b Hnone|b tables e tr Hres Hprov
                  |b tables tr1 o tr2 Hres Hprov Hins]; try reflexivity.
  - inversion Hprov; subst; reflexivity.
  - destruct Hins; try congruence.
    inversion Hprov; subst; reflexivity.
Qed.

(** C1 fails on the code. The table exists, the batch has one record and
    the insertion returns status 200 with the message ["3 objects inserted
    into segment 5"]: [store] does not return [[3; 5]], it raises
    [TypeError], because [_extract_numbers] is defined without [self] and
    called on the instance.  The function itself, given the message
    alone, gives [[3; 5]]. *)
Theorem store_confirmed_insert_raises :
  let msg := "3 objects inserted into segment 5" in
  let x := run (scripted (all_ok msg))
               (store example_sink [example_vector "f1"]) ["t"] in
  omap insert_answer (trace_of x) =
    [(200, {| result := None; message := Some msg |})] /\
  outcome_of x =
    Raised (TypeError
      "EpsillaSink._extract_numbers() takes 1 positional argument but 2 were given") /\
  outcome_of x <> Returned [3; 5] /\
  _extract_numbers_body (ArgStr msg) = Ret [3; 5].
Proof.
  repeat split. discriminate.
Qed.

(** C3 fails on the code. A record whose metadata is empty, or has other
    keys only, makes the encoding loop of [store] raise
    [KeyError('_file_entry_id')]: the empty string is substituted for a
    value that is present and false, not for a missing key.  No insertion
    request is sent. *)
Theorem store_missing_file_entry_id_raises :
  let x := run (scripted (all_ok "1 objects inserted"))
               (store example_sink [bare_vector]) ["t"] in
  let y := run (scripted (all_ok "1 objects inserted"))
               (store example_sink [example_vector "f1"; untagged_vector]) ["t"] in
  NeumVector.metadata bare_vector !! "_file_entry_id" = None /\
  NeumVector.metadata untagged_vector !! "_file_entry_id" = None /\
  encode bare_vector = Raise (KeyError "_file_entry_id") /\
  encode untagged_vector = Raise (KeyError "_file_entry_id") /\
  outcome_of x = Raised (KeyError "_file_entry_id") /\
  omap insert_request (trace_of x) = [] /\
  outcome_of y = Raised (KeyError "_file_entry_id") /\
  omap insert_request (trace_of y) = [].
Proof.
  repeat split; vm_compute; reflexivity.
Qed.

(** ** info *)

(** The runs of [info]. *)
Lemma run_info {S : Type} (h : backend S) (s : S) (self : EpsillaSink) :
  let x := run h (info self) s in
  forallb (fun ev => negb (mutating ev)) (trace_of x) = true /\
  (length (trace_of x) <= 3)%nat /\
  (omap get_answer (trace_of x) = [] \/
   exists sc b,
     omap get_answer (trace_of x) = [(sc, b)] /\
     omap get_request (trace_of x) = [(db_of self, table_name self)] /\
     outcome_of x =
       if negb (Z.eqb sc 200) then
         match message b with
         | Some msg =>
             Raised (EpsillaIndexInfoException
                       ("Failed to get information from Epsilla. Exception - "
                          +:+ msg))
         | None => Raised (KeyError "message")
         end
       else
         match result b with
         | Some rows =>
             Returned {| NeumSinkInfo.number_vectors_stored := len rows |}
         | None => Raised (KeyError "result")
         end).
Proof.
  unfold info, _get_db, subscript_result, subscript_message,
    outcome_of, trace_of; simpl.
  answer_unit h; [repeat split; auto; lia|].
  answer_unit h; [repeat split; auto; lia|].
  answer_status h; [repeat split; auto; lia|].
  destruct (Z.eqb sc 200) eqn:Esc, (message b) eqn:Emsg, (result b) eqn:Eres;
    simpl;
    (split; [reflexivity|]; split; [lia|]; right; exists sc, b;
     rewrite ?Esc, ?Emsg, ?Eres; simpl; auto).
Qed.

(** X1. When the [get] call of [info] returns status 200 with the rows
    of the table, [info] returns their number, and never a negative
    one. *)
Theorem info_counts_rows {S : Type} (h : backend S) (s : S)
  (self : EpsillaSink) (ev : event) (b : body (list data))
  (rows : list data) :
  let x := run h (info self) s in
  In ev (trace_of x) ->
  get_answer ev = Some (200, b) ->
  result b = Some rows ->
  outcome_of x =
    Returned {| NeumSinkInfo.number_vectors_stored := Z.of_nat (length rows) |}
  /\ 0 <= Z.of_nat (length rows).
Proof.
  intros x Hin Hev Hres.
  pose proof (in_omap _ _ _ _ Hin Hev) as Hom.
  pose proof (run_info h s self) as Hrun. cbv zeta in Hrun. fold x in Hrun.
  destruct Hrun as (_ & _ & [Hnone|(sc & b' & Hans & _ & Hout)]).
  - rewrite Hnone in Hom. destruct Hom.
  - rewrite Hans in Hom. destruct Hom as [Heq|[]]. injection Heq as -> ->.
    rewrite Hout, Hres. simpl. split; [reflexivity|lia].
Qed.

Lemma info_counts_rows_witness :
  let x := run (scripted two_records) (info example_sink) ["t"] in
  outcome_of x = Returned {| NeumSinkInfo.number_vectors_stored := 2 |}.
Proof.
  refine (proj1 (info_counts_rows (scripted two_records) ["t"] example_sink
            (Ev (Get (db_of example_sink) "t") (inr (on_get two_records)))
            {| result := Some [example_data "a"; example_data "b"];
               message := None |}
            [example_data "a"; example_data "b"] _ _ _)).
  - vm_compute. tauto.
  - reflexivity.
  - reflexivity.
Defined.

(** X2. When the [get] call of [info] returns a status other than 200,
    [info] raises [EpsillaIndexInfoException] with the message of the
    answer after a fixed text; when the answer has no message, the
    exception is the [KeyError] of the missing key instead. *)
Theorem info_failure {S : Type} (h : backend S) (s : S)
  (self : EpsillaSink) (ev : event) (sc : Z) (b : body (list data)) :
  let x := run h (info self) s in
  In ev (trace_of x) ->
  get_answer ev = Some (sc, b) ->
  sc <> 200 ->
  outcome_of x =
    match message b with
    | Some msg =>
        Raised (EpsillaIndexInfoException
                  ("Failed to get information from Epsilla. Exception - "
                     +:+ msg))
    | None => Raised (KeyError "message")
    end.
Proof.
  intros x Hin Hev Hsc.
  pose proof (in_omap _ _ _ _ Hin Hev) as Hom.
  pose proof (run_info h s self) as Hrun. cbv zeta in Hrun. fold x in Hrun.
  destruct Hrun as (_ & _ & [Hnone|(sc' & b' & Hans & _ & Hout)]).
  - rewrite Hnone in Hom. destruct Hom.
  - rewrite Hans in Hom. destruct Hom as [Heq|[]]. injection Heq as -> ->.
    rewrite Hout. apply Z.eqb_neq in Hsc. rewrite Hsc. reflexivity.
Qed.

Lemma info_failure_witness :
  let x := run (scripted table_not_found) (info example_sink) [] in
  outcome_of x =
    Raised (EpsillaIndexInfoException
      "Failed to get information from Epsilla. Exception - Table not found").
Proof.
  refine (info_failure (scripted table_not_found) [] example_sink
            (Ev (Get (db_of example_sink) "t") (inr (on_get table_not_found)))
            404 {| result := None; message := Some "Table not found" |}
            _ _ _).
  - vm_compute. tauto.
  - reflexivity.
  - lia.
Defined.

(** X3. [info] and [search] only read: a run of either has at most three
    requests (the client, the database, and one [get] or [query]), and
    none of them creates, inserts or deletes. *)
Theorem info_and_search_only_read {S : Type} (h : backend S) (s : S)
  (self : EpsillaSink) (v : list float) (k : Z) (filter : gmap string pyval) :
  let x := run h (info self) s in
  let y := run h (search self v k filter) s in
  forallb (fun ev => negb (mutating ev)) (trace_of x) = true /\
  (length (trace_of x) <= 3)%nat /\
  forallb (fun ev => negb (mutating ev)) (trace_of y) = true /\
  (length (trace_of y) <= 3)%nat.
Proof.
  intros x y.
  destruct (run_info h s self) as (H1 & H2 & _).
  split; [exact H1|]. split; [exact H2|].
  subst y.
  unfold search, _get_db, subscript_result, subscript_message, trace_of; simpl.
  answer_unit h; [split; [reflexivity|lia]|].
  answer_unit h; [split; [reflexivity|lia]|].
  answer_status h; [split; [reflexivity|lia]|].
  destruct (Z.eqb sc 200), (message b), (result b); simpl;
    (split; [reflexivity|lia]).
Qed.

(** X4. When the [query] call of [search] returns a status other than
    200, [search] raises [EpsillaQueryException] with the message of the
    answer after a fixed text; when the answer has no message, the
    exception is the [KeyError] of the missing key instead. *)
Theorem search_failure {S : Type} (h : backend S) (s : S)
  (self : EpsillaSink) (v : list float) (k : Z) (filter : gmap string pyval)
  (ev : event) (sc : Z) (b : body (list match_row)) :
  let x := run h (search self v k filter) s in
  In ev (trace_of x) ->
  query_answer ev = Some (sc, b) ->
  sc <> 200 ->
  outcome_of x =
    match message b with
    | Some msg =>
        Raised (EpsillaQueryException
                  ("Failed to query Epsilla. Exception - " +:+ msg))
    | None => Raised (KeyError "message")
    end.
Proof.
  intros x Hin Hev Hsc.
  pose proof (in_omap _ _ _ _ Hin Hev) as Hom.
  pose proof (run_search h s self v k filter) as Hrun. cbv zeta in Hrun.
  fold x in Hrun.
  destruct Hrun as [[_ Hnone]|[_ [Hnone|(sc' & b' & Hans & Hout)]]];
    try (rewrite Hnone in Hom; destruct Hom).
  rewrite Hans in Hom. destruct Hom as [Heq|[]]. injection Heq as -> ->.
  rewrite Hout. apply Z.eqb_neq in Hsc. rewrite Hsc. reflexivity.
Qed.

Lemma search_failure_witness :
  let x := run (scripted table_not_found)
               (search example_sink [PrimFloat.one] 3 ∅) [] in
  outcome_of x =
    Raised (EpsillaQueryException
      "Failed to query Epsilla. Exception - Table not found").
Proof.
  refine (search_failure (scripted table_not_found) [] example_sink
            [PrimFloat.one] 3 ∅
            (Ev (Query (db_of example_sink) "t" "vector" [PrimFloat.one] 3 true)
                (inr (on_query table_not_found)))
            404 {| result := None; message := Some "Table not found" |}
            _ _ _).
  - vm_compute. tauto.
  - reflexivity.
  - lia.
Defined.

(** ** Exceptions of the client *)

(** The exceptions raised inside the client during a run of [store]. *)
Lemma store_raising {S : Type} (h : backend S) (s : S) (self : EpsillaSink)
  (vectors_to_store : list NeumVector.t) :
  let x := run h (store self vectors_to_store) s in
  omap raised_by (trace_of x) = [] \/
  exists e,
    omap raised_by (trace_of x) = [e] /\
    last (trace_of x) ≫= raised_by = Some e /\
    outcome_of x = Raised e.
Proof.
  pose proof (run_store_paths h s self vectors_to_store) as Hp.
  cbv zeta in Hp |- *.
  destruct (run h (store self vectors_to_store) s) as [[o st] tr].
  unfold outcome_of, trace_of in *; simpl in *.
  destruct Hp as [e|e|e|sc b Hsc|b Hnone|b tables e tr Hres Hprov
                  |b tables tr1 o tr2 Hres Hprov Hins].
  1-3: right; exists e; repeat split.
  1-2: left; reflexivity.
  - inversion Hprov; subst;
      first [left; reflexivity | right; exists e; repeat split].
  - destruct Hins; inversion Hprov; subst;
      first [left; reflexivity | right; eexists; repeat split].
Qed.

Lemma search_raising {S : Type} (h : backend S) (s : S) (self : EpsillaSink)
  (v : list float) (k : Z) (filter : gmap string pyval) :
  let x := run h (search self v k filter) s in
  omap raised_by (trace_of x) = [] \/
  exists e,
    omap raised_by (trace_of x) = [e] /\
    last (trace_of x) ≫= raised_by = Some e /\
    outcome_of x = Raised e.
Proof.
  unfold search, _get_db, subscript_result, subscript_message,
    outcome_of, trace_of; simpl.
  answer_unit h; [right; exists e; repeat split|].
  answer_unit h; [right; exists e; repeat split|].
  answer_status h; [right; exists e; repeat split|].
  left. destruct (Z.eqb sc 200), (message b), (result b); reflexivity.
Qed.

Lemma info_raising {S : Type} (h : backend S) (s : S) (self : EpsillaSink) :
  let x := run h (info self) s in
  omap raised_by (trace_of x) = [] \/
  exists e,
    omap raised_by (trace_of x) = [e] /\
    last (trace_of x) ≫= raised_by = Some e /\
    outcome_of x = Raised e.
Proof.
  unfold info, _get_db, subscript_result, subscript_message,
    outcome_of, trace_of; simpl.
  answer_unit h; [right; exists e; repeat split|].
  answer_unit h; [right; exists e; repeat split|].
  answer_status h; [right; exists e; repeat split|].
  left. destruct (Z.eqb sc 200), (message b), (result b); reflexivity.
Qed.

Lemma delete_raising {S : Type} (h : backend S) (s : S) (self : EpsillaSink)
  (file_id : string) :
  let x := run h (delete_vectors_with_file_id self file_id) s in
  omap raised_by (trace_of x) = [] \/
  exists e,
    omap raised_by (trace_of x) = [e] /\
    last (trace_of x) ≫= raised_by = Some e /\
    outcome_of x = Raised e.
Proof.
  unfold delete_vectors_with_file_id, _get_db, outcome_of, trace_of; simpl.
  answer_unit h; [right; exists e; repeat split|].
  answer_unit h; [right; exists e; repeat split|].
  answer_status h; [right; exists e; repeat split|].
  left. destruct (Z.eqb sc 200); reflexivity.
Qed.

(** X5. [store], [search], [info] and [delete_vectors_with_file_id] let
    the exceptions of the client through: when a call into the client
    raises [e] during a run, the operation ends with [e] itself, not with
    one of the connector's exceptions; that call is the only one that
    raised and the last request of the run. *)
Theorem client_exception_propagates {S : Type} (h : backend S) (s : S)
  (self : EpsillaSink) (op : operation) (ev : event) (e : exn) :
  In ev (snd (run_operation h s self op)) ->
  raised_by ev = Some e ->
  fst (run_operation h s self op) = Some e /\
  omap raised_by (snd (run_operation h s self op)) = [e] /\
  last (snd (run_operation h s self op)) ≫= raised_by = Some e.
Proof.
  intros Hin Hev. pose proof (in_omap _ _ _ _ Hin Hev) as Hom.
  assert (Hcases :
    omap raised_by (snd (run_operation h s self op)) = [] \/
    exists e',
      omap raised_by (snd (run_operation h s self op)) = [e'] /\
      last (snd (run_operation h s self op)) ≫= raised_by = Some e' /\
      fst (run_operation h s self op) = Some e').
  { destruct op as [vs|v k f| |file_id]; cbn [run_operation fst snd].
    - destruct (store_raising h s self vs) as [H|(e' & H1 & H2 & H3)];
        [left; exact H|right; exists e'; rewrite H3; auto].
    - destruct (search_raising h s self v k f) as [H|(e' & H1 & H2 & H3)];
        [left; exact H|right; exists e'; rewrite H3; auto].
    - destruct (info_raising h s self) as [H|(e' & H1 & H2 & H3)];
        [left; exact H|right; exists e'; rewrite H3; auto].
    - destruct (delete_raising h s self file_id) as [H|(e' & H1 & H2 & H3)];
        [left; exact H|right; exists e'; rewrite H3; auto]. }
  destruct Hcases as [Hnone|(e' & H1 & H2 & H3)].
  - rewrite Hnone in Hom. destruct Hom.
  - rewrite H1 in Hom. destruct Hom as [->|[]]. auto.
Qed.

Lemma client_exception_propagates_witness :
  fst (run_operation (scripted unreachable) [] example_sink
         (OpStore [example_vector "f1"])) =
  Some (ClientException "Connection refused").
Proof.
  refine (proj1 (client_exception_propagates (scripted unreachable) []
            example_sink (OpStore [example_vector "f1"])
            (Ev (ClientVectordb (db_client (db_of example_sink)) "d")
                (inl (ClientException "Connection refused")))
            (ClientException "Connection refused") _ _)).
  - vm_compute. tauto.
  - reflexivity.
Defined.

(** ** More on store *)

(** Takes the run of [store] of the goal apart and names its path. *)
Ltac store_paths h s self vs Hp :=
  generalize (run_store_paths h s self vs); cbv zeta;
  destruct (run h (store self vs) s) as [[?o ?st] ?tr];
  unfold outcome_of, trace_of, state_of; simpl;
  intros Hp.

(** The insertion request of a run of [store], and what came before
    it. *)
Lemma store_inserts {S : Type} (h : backend S) (s : S) (self : EpsillaSink)
  (vectors_to_store : list NeumVector.t) :
  let x := run h (store self vectors_to_store) s in
  (length (trace_of x) <= 5)%nat /\
  (length (omap create_request (trace_of x)) <= 1)%nat /\
  omap delete_request (trace_of x) = [] /\
  omap query_request (trace_of x) = [] /\
  omap get_request (trace_of x) = [] /\
  (omap insert_request (trace_of x) = [] /\
   omap insert_answer (trace_of x) = [] \/
   forallb has_file_entry_id vectors_to_store = true /\
   omap insert_request (trace_of x) =
     [(db_of self, table_name self, map encoded vectors_to_store)] /\
   (exists b tables,
       omap listing_answer (trace_of x) = [(200, b)] /\
       result b = Some tables /\
       if contains (table_name self) tables
       then omap create_request (trace_of x) = []
       else existsb created (trace_of x) = true) /\
   (omap insert_answer (trace_of x) = [] \/
    exists sc b,
      omap insert_answer (trace_of x) = [(sc, b)] /\
      last (trace_of x) ≫= insert_answer = Some (sc, b) /\
      outcome_of x =
        if negb (Z.eqb sc 200) then Raised storing_failed
        else match message b with
             | Some _ =>
                 Raised (TypeError
                   (arity_message "EpsillaSink._extract_numbers" 1 2))
             | None => Raised (KeyError "message")
             end)).
Proof.
  intros x. subst x. store_paths h s self vectors_to_store Hp.
  destruct Hp as [e|e|e|sc b Hsc|b Hnone|b tables e tr Hres Hprov
                  |b tables tr1 o tr2 Hres Hprov Hins].
  1-5: (split; [simpl; lia|]); (split; [simpl; lia|]);
    (split; [reflexivity|]); (split; [reflexivity|]); (split; [reflexivity|]);
    left; split; reflexivity.
  - inversion Hprov; subst; simpl;
      (split; [lia|]); (split; [lia|]);
      (split; [reflexivity|]); (split; [reflexivity|]);
      (split; [reflexivity|]); left; split; reflexivity.
  - destruct Hins as [Hk|e Hk|sc b' Hk Hsc|b' Hk Hmsg|b' msg Hk Hmsg];
      inversion Hprov as [Ein|Ein Hvs|vec0 rest e' Ein Hvs
                          |vec0 rest sc' b3 Ein Hvs Hsc'|vec0 rest b3 Ein Hvs];
      subst; simpl;
      (split; [lia|]); (split; [lia|]); (split; [reflexivity|]);
      (split; [reflexivity|]); (split; [reflexivity|]);
      try (left; split; reflexivity);
      right; (split; [exact Hk|]); (split; [reflexivity|]);
      (split; [exists b, tables; split; [reflexivity|];
               split; [exact Hres|]; rewrite Ein; reflexivity|]);
      try (left; reflexivity);
      right; eexists _, _; (split; [reflexivity|]); (split; [reflexivity|]);
      try (apply Z.eqb_neq in Hsc; rewrite Hsc; reflexivity);
      simpl; rewrite Hmsg; reflexivity.
Qed.

(** X6. The insertion request of [store] carries one record per vector
    of the batch, in the order of the batch, for the table of the sink:
    the record has the id, the vector and the whole metadata of its
    vector (the key ["_file_entry_id"] stays in the metadata), and as
    [file_entry_id] the value of that key, or the empty string when the
    value is false (None, an empty string, zero, ...).  Vectors of other
    lengths than the first are sent as they are. *)
Theorem store_insert_payload {S : Type} (h : backend S) (s : S)
  (self : EpsillaSink) (vectors_to_store : list NeumVector.t)
  (ev : event) (db : Vectordb) (t : string) (records : list data) :
  let x := run h (store self vectors_to_store) s in
  In ev (trace_of x) ->
  insert_request ev = Some (db, t, records) ->
  db = db_of self /\ t = table_name self /\
  length records = length vectors_to_store /\
  forall (i : nat) (vec : NeumVector.t),
    vectors_to_store !! i = Some vec ->
    exists v,
      NeumVector.metadata vec !! "_file_entry_id" = Some v /\
      records !! i =
        Some {| data_id := NeumVector.id vec;
                data_vector := NeumVector.vector vec;
                data_metadata := NeumVector.metadata vec;
                data_file_entry_id := if truthy v then v else PStr "" |}.
Proof.
  intros x Hin Hev.
  pose proof (in_omap _ _ _ _ Hin Hev) as Hom.
  destruct (store_inserts h s self vectors_to_store)
    as (_ & _ & _ & _ & _ & [[Hnone _]|(Hk & Hreq & _)]); fold x in Hnone || fold x in Hreq.
  - rewrite Hnone in Hom. destruct Hom.
  - rewrite Hreq in Hom. destruct Hom as [Heq|[]].
    injection Heq as <- <- <-.
    split; [reflexivity|]. split; [reflexivity|].
    split; [apply length_map|].
    intros i vec Hi.
    assert (Hhas : has_file_entry_id vec = true).
    { rewrite forallb_forall in Hk. apply Hk.
      apply list_elem_of_In, list_elem_of_lookup. eauto. }
    unfold has_file_entry_id in Hhas.
    destruct (NeumVector.metadata vec !! "_file_entry_id") as [v|] eqn:Hv;
      [|discriminate].
    exists v. split; [reflexivity|].
    rewrite list_lookup_fmap, Hi. simpl. unfold encoded. rewrite Hv.
    reflexivity.
Qed.

Lemma store_insert_payload_witness :
  let x := run (scripted (all_ok "2 objects inserted"))
               (store example_sink [example_vector "f1"; unfiled_vector])
               ["t"] in
  exists v,
    NeumVector.metadata unfiled_vector !! "_file_entry_id" = Some v /\
    [encoded (example_vector "f1"); encoded unfiled_vector] !! 1%nat =
      Some {| data_id := "c"; data_vector := [PrimFloat.one];
              data_metadata := NeumVector.metadata unfiled_vector;
              data_file_entry_id := if truthy v then v else PStr "" |}.
Proof.
  refine (proj2 (proj2 (proj2
            (store_insert_payload (scripted (all_ok "2 objects inserted"))
               ["t"] example_sink [example_vector "f1"; unfiled_vector]
               (Ev (Insert (db_of example_sink) "t"
                      [encoded (example_vector "f1"); encoded unfiled_vector])
                   (inr (on_insert (all_ok "2 objects inserted"))))
               (db_of example_sink) "t"
               [encoded (example_vector "f1"); encoded unfiled_vector] _ _)))
            1%nat unfiled_vector _).
  - vm_compute. tauto.
  - reflexivity.
  - reflexivity.
Defined.

(** X7. [store] sends an insertion only when the listing returned status
    200 and either listed the table or was followed by a creation that
    returned status 200, and only when every vector of the batch has the
    key ["_file_entry_id"]. *)
Theorem store_insert_guarded {S : Type} (h : backend S) (s : S)
  (self : EpsillaSink) (vectors_to_store : list NeumVector.t)
  (ev : event) (req : Vectordb * string * list data) :
  let x := run h (store self vectors_to_store) s in
  In ev (trace_of x) ->
  insert_request ev = Some req ->
  forallb has_file_entry_id vectors_to_store = true /\
  exists b tables,
    omap listing_answer (trace_of x) = [(200, b)] /\
    result b = Some tables /\
    if contains (table_name self) tables
    then omap create_request (trace_of x) = []
    else existsb created (trace_of x) = true.
Proof.
  intros x Hin Hev.
  pose proof (in_omap _ _ _ _ Hin Hev) as Hom.
  destruct (store_inserts h s self vectors_to_store)
    as (_ & _ & _ & _ & _ & [[Hnone _]|(Hk & _ & Hlist & _)]).
  - fold x in Hnone. rewrite Hnone in Hom. destruct Hom.
  - split; [exact Hk | exact Hlist].
Qed.

Lemma store_insert_guarded_witness :
  let x := run (scripted (all_ok "1 objects inserted"))
               (store example_sink [example_vector "f1"]) [] in
  forallb has_file_entry_id [example_vector "f1"] = true /\
  exists b tables,
    omap listing_answer (trace_of x) = [(200, b)] /\
    result b = Some tables /\
    if contains (table_name example_sink) tables
    then omap create_request (trace_of x) = []
    else existsb created (trace_of x) = true.
Proof.
  refine (store_insert_guarded (scripted (all_ok "1 objects inserted"))
            [] example_sink [example_vector "f1"]
            (Ev (Insert (db_of example_sink) "t"
                   [encoded (example_vector "f1")])
                (inr (on_insert (all_ok "1 objects inserted"))))
            (db_of example_sink, "t", [encoded (example_vector "f1")]) _ _).
  - vm_compute. tauto.
  - reflexivity.
Defined.

(** X8. A run of [store] has at most five requests, among them at most
    one creation and at most one insertion; [store] never deletes,
    queries or reads the table. *)
Theorem store_requests {S : Type} (h : backend S) (s : S)
  (self : EpsillaSink) (vectors_to_store : list NeumVector.t) :
  let x := run h (store self vectors_to_store) s in
  (length (trace_of x) <= 5)%nat /\
  (length (omap create_request (trace_of x)) <= 1)%nat /\
  (length (omap insert_request (trace_of x)) <= 1)%nat /\
  omap delete_request (trace_of x) = [] /\
  omap query_request (trace_of x) = [] /\
  omap get_request (trace_of x) = [].
Proof.
  intros x.
  destruct (store_inserts h s self vectors_to_store)
    as (H1 & H2 & H3 & H4 & H5 & H6); fold x in H1, H2, H3, H4, H5, H6.
  split; [exact H1|]. split; [exact H2|].
  split; [|auto].
  destruct H6 as [[-> _]|(_ & -> & _)]; simpl; lia.
Qed.

(** X9. When the insertion of [store] returns status 200, [store] still
    ends with an exception: [TypeError] from the call of
    [_extract_numbers] when the answer has a message, the [KeyError] of
    the missing key when it has none.  The insertion is the last request
    of the run: the records are in, and the caller sees a failure. *)
Theorem store_raises_after_insert {S : Type} (h : backend S) (s : S)
  (self : EpsillaSink) (vectors_to_store : list NeumVector.t)
  (ev : event) (b : body unit) :
  let x := run h (store self vectors_to_store) s in
  In ev (trace_of x) ->
  insert_answer ev = Some (200, b) ->
  outcome_of x =
    match message b with
    | Some _ =>
        Raised (TypeError
          "EpsillaSink._extract_numbers() takes 1 positional argument but 2 were given")
    | None => Raised (KeyError "message")
    end /\
  last (trace_of x) ≫= insert_answer = Some (200, b).
Proof.
  intros x Hin Hev.
  pose proof (in_omap _ _ _ _ Hin Hev) as Hom.
  destruct (store_inserts h s self vectors_to_store)
    as (_ & _ & _ & _ & _ & [[_ Hnone]|(_ & _ & _ & [Hnone|Hans])]);
    try (fold x in Hnone; rewrite Hnone in Hom; destruct Hom).
  destruct Hans as (sc & b' & Hans & Hlast & Hout).
  fold x in Hans, Hlast, Hout.
  rewrite Hans in Hom. destruct Hom as [Heq|[]]. injection Heq as -> ->.
  split; [rewrite Hout; reflexivity | exact Hlast].
Qed.

Lemma store_raises_after_insert_witness :
  let x := run (scripted (all_ok "1 objects inserted"))
               (store example_sink [example_vector "f1"]) ["t"] in
  outcome_of x =
    Raised (TypeError
      "EpsillaSink._extract_numbers() takes 1 positional argument but 2 were given").
Proof.
  refine (proj1 (store_raises_after_insert
            (scripted (all_ok "1 objects inserted")) ["t"] example_sink
            [example_vector "f1"]
            (Ev (Insert (db_of example_sink) "t"
                   [encoded (example_vector "f1")])
                (inr (on_insert (all_ok "1 objects inserted"))))
            {| result := None; message := Some "1 objects inserted" |} _ _)).
  - vm_compute. tauto.
  - reflexivity.
Defined.

(** X10. When a vector of the batch lacks the key ["_file_entry_id"],
    [store] sends no insertion; once the listing returned status 200 and
    the table is listed, or has been created by the run, [store] raises
    [KeyError('_file_entry_id')]: a table created for the batch stays
    without its records. *)
Theorem store_missing_key {S : Type} (h : backend S) (s : S)
  (self : EpsillaSink) (vectors_to_store : list NeumVector.t)
  (ev : event) (b : body (list string)) (tables : list string) :
  let x := run h (store self vectors_to_store) s in
  forallb has_file_entry_id vectors_to_store = false ->
  In ev (trace_of x) ->
  listing_answer ev = Some (200, b) ->
  result b = Some tables ->
  omap insert_request (trace_of x) = [] /\
  (contains (table_name self) tables = true \/
   existsb created (trace_of x) = true ->
   outcome_of x = Raised (KeyError "_file_entry_id")).
Proof.
  intros x Hkeys Hin Hev Hres.
  split; [apply store_missing_key_sends_no_insert; exact Hkeys|].
  destruct (store_listing h s self vectors_to_store ev b tables Hin Hev Hres)
    as (e_or_none & tr1 & Hprov & Hrun).
  fold x in Hrun.
  destruct Hprov as [Ein|Ein Hvs|vec0 rest e Ein Hvs|vec0 rest sc b' Ein Hvs Hsc
                     |vec0 rest b' Ein Hvs].
  - destruct Hrun as (tr2 & Hins & Htr). intros _.
    destruct Hins; congruence.
  - subst vectors_to_store. discriminate Hkeys.
  - destruct Hrun as [_ ->]. intros [H|H]; [congruence|discriminate H].
  - destruct Hrun as [_ ->]. apply Z.eqb_neq in Hsc.
    intros [H|H]; [congruence|]. observe. rewrite Hsc in H. discriminate H.
  - destruct Hrun as (tr2 & Hins & Htr). intros _.
    destruct Hins; congruence.
Qed.

Lemma store_missing_key_witness :
  let x := run (scripted (all_ok "1 objects inserted"))
               (store example_sink [untagged_vector]) [] in
  omap insert_request (trace_of x) = [] /\
  outcome_of x = Raised (KeyError "_file_entry_id") /\
  state_of x = ["t"].
Proof.
  pose proof (store_missing_key (scripted (all_ok "1 objects inserted")) []
                example_sink [untagged_vector]
                (Ev (ListTables (db_of example_sink))
                    (inr (200, {| result := Some []; message := None |})))
                {| result := Some []; message := None |} []
                eq_refl) as H.
  destruct H as [Hnone Hout].
  - vm_compute. tauto.
  - reflexivity.
  - reflexivity.
  - split; [exact Hnone|]. split; [|reflexivity].
    apply Hout. right. reflexivity.
Defined.

(** X11. When the listing returns status 200 with a body that has no
    ["result"], [store] raises the [KeyError] of the missing key and
    sends nothing after the listing: no creation and no insertion. *)
Theorem store_listing_without_result {S : Type} (h : backend S) (s : S)
  (self : EpsillaSink) (vectors_to_store : list NeumVector.t)
  (ev : event) (b : body (list string)) :
  let x := run h (store self vectors_to_store) s in
  In ev (trace_of x) ->
  listing_answer ev = Some (200, b) ->
  result b = None ->
  outcome_of x = Raised (KeyError "result") /\
  forallb (fun ev => negb (mutating ev)) (trace_of x) = true /\
  trace_of x = connected self ++ [ev_list self (inr (200, b))].
Proof.
  intros x Hin Hev Hres.
  pose proof (in_omap _ _ _ _ Hin Hev) as Hom. clear Hin Hev.
  revert Hom. subst x. store_paths h s self vectors_to_store Hp.
  intros Hom.
  destruct Hp as [e|e|e|sc b' Hsc|b' Hnone|b' tables e tr Hres' Hprov
                  |b' tables tr1 o tr2 Hres' Hprov Hins].
  1-3: events; tauto.
  - events. destruct Hom as [Heq|[]]. injection Heq as -> ->. congruence.
  - events. destruct Hom as [Heq|[]]. injection Heq as ->. auto.
  - assert (b' = b) as ->; [|congruence].
    inversion Hprov; subst; events; destruct Hom as [Heq|[]];
      injection Heq as ->; reflexivity.
  - assert (b' = b) as ->; [|congruence].
    destruct Hins; inversion Hprov; subst; events; destruct Hom as [Heq|[]];
      injection Heq as ->; reflexivity.
Qed.

Lemma store_listing_without_result_witness :
  let x := run (fun R r s =>
                  match r in request R return (exn + R) * list string with
                  | ListTables _ => (inr (200, {| result := None;
                                                  message := Some "ok" |}), s)
                  | r' => scripted (all_ok "") _ r' s
                  end)
               (store example_sink [example_vector "f1"]) [] in
  outcome_of x = Raised (KeyError "result").
Proof.
  refine (proj1 (store_listing_without_result _ [] example_sink
            [example_vector "f1"]
            (Ev (ListTables (db_of example_sink))
                (inr (200, {| result := None; message := Some "ok" |})))
            {| result := None; message := Some "ok" |} _ _ _)).
  - vm_compute. tauto.
  - reflexivity.
  - reflexivity.
Defined.

(** ** _extract_numbers *)

Lemma append_cons (x : ascii) (a b : string) :
  String x a +:+ b = String x (a +:+ b).
Proof. reflexivity. Qed.

Lemma append_assoc (a b c : string) : (a +:+ b) +:+ c = a +:+ (b +:+ c).
Proof.
  induction a as [|x a IH]; [reflexivity|].
  rewrite !append_cons, IH. reflexivity.
Qed.

Lemma append_empty_r (a : string) : a +:+ EmptyString = a.
Proof.
  induction a as [|x a IH]; [reflexivity|].
  rewrite append_cons, IH. reflexivity.
Qed.

Lemma list_ascii_of_string_app (a b : string) :
  list_ascii_of_string (a +:+ b) =
  list_ascii_of_string a ++ list_ascii_of_string b.
Proof. induction a as [|x a IH]; simpl; [reflexivity|]. f_equal. exact IH. Qed.

(** The matches, written one after the other, are the run being read
    followed by the digits of the rest of the input. *)
Lemma characters_findall_digits_from (s cur : string) :
  characters (findall_digits_from s cur) =
  list_ascii_of_string cur ++ List.filter is_digit (list_ascii_of_string s).
Proof.
  unfold characters. revert cur.
  induction s as [|c s IH]; intros cur; simpl.
  - destruct cur; simpl; rewrite ?app_nil_r; reflexivity.
  - destruct (is_digit c) eqn:Hc.
    + rewrite IH, list_ascii_of_string_app, <- app_assoc. reflexivity.
    + destruct cur; simpl.
      * apply IH.
      * rewrite IH. reflexivity.
Qed.

(** A character that is not a digit separates the matches on its left
    from the matches on its right. *)
Lemma findall_digits_from_separator (s1 s2 cur : string) (c : ascii) :
  is_digit c = false ->
  findall_digits_from (s1 +:+ String c s2) cur =
  findall_digits_from s1 cur ++ findall_digits_from s2 EmptyString.
Proof.
  intros Hc. revert cur. induction s1 as [|d s1 IH]; intros cur; simpl.
  - rewrite Hc. destruct cur; reflexivity.
  - destruct (is_digit d); [apply IH|].
    destruct cur; simpl; rewrite IH; reflexivity.
Qed.

(** A run of digits goes to the match being read. *)
Lemma findall_digits_from_run (d rest cur : string) :
  all_digits d = true ->
  findall_digits_from (d +:+ rest) cur = findall_digits_from rest (cur +:+ d).
Proof.
  unfold all_digits. revert cur.
  induction d as [|c d IH]; intros cur Hd; simpl in *.
  - rewrite append_empty_r. reflexivity.
  - apply andb_true_iff in Hd as [Hc Hd]. rewrite Hc, IH by exact Hd.
    rewrite append_assoc. reflexivity.
Qed.

(** Text without digits is skipped. *)
Lemma findall_digits_from_skip (t rest : string) :
  existsb is_digit (list_ascii_of_string t) = false ->
  findall_digits_from (t +:+ rest) EmptyString =
  findall_digits_from rest EmptyString.
Proof.
  induction t as [|c t IH]; simpl; intros Ht; [reflexivity|].
  apply orb_false_iff in Ht as [Hc Ht]. rewrite Hc. auto.
Qed.

(** X12. The matches of [findall(r'\d+', s)] are non-empty strings of
    digits, and written one after the other they are the digits of [s] in
    the order of [s]: no digit of the input is lost and none is added. *)
Theorem findall_digits_keeps_digits (s : string) :
  Forall (fun m => m <> EmptyString /\ all_digits m = true)
         (findall_digits s) /\
  characters (findall_digits s) =
    List.filter is_digit (list_ascii_of_string s).
Proof.
  split.
  - apply findall_digits_from_matches. reflexivity.
  - unfold findall_digits. rewrite characters_findall_digits_from.
    reflexivity.
Qed.

(** X13. A character that is not a digit cuts the input in two for
    [findall(r'\d+', ...)]: the matches of the whole are the matches of
    the part before it followed by the matches of the part after it. *)
Theorem findall_digits_separator (s1 s2 : string) (c : ascii) :
  is_digit c = false ->
  findall_digits (s1 +:+ String c s2) = findall_digits s1 ++ findall_digits s2.
Proof.
  intros Hc. unfold findall_digits.
  apply findall_digits_from_separator. exact Hc.
Qed.

Lemma findall_digits_separator_witness :
  findall_digits ("12" +:+ String " "%char "345") =
  findall_digits "12" ++ findall_digits "345".
Proof.
  apply (findall_digits_separator "12" "345" " "%char). reflexivity.
Defined.

(** *** int *)

Lemma is_digit_value (c : ascii) :
  is_digit c = true -> 0 <= digit_value c <= 9.
Proof.
  unfold is_digit, digit_value. intros H.
  apply andb_true_iff in H as [H1 H2].
  apply N.leb_le in H1, H2. lia.
Qed.

Lemma int_from_nonneg (s : string) (acc : Z) :
  all_digits s = true -> 0 <= acc -> 0 <= int_from s acc.
Proof.
  unfold all_digits. revert acc.
  induction s as [|c s IH]; intros acc Hs Hacc; simpl in *; [exact Hacc|].
  apply andb_true_iff in Hs as [Hc Hs]. apply IH; [exact Hs|].
  pose proof (is_digit_value c Hc). lia.
Qed.

(** The conversions of a list of matches: all of them, or the error of
    the first match that is too long. *)
Lemma int_each_spec (matches : list string) :
  int_each matches =
  match List.find too_long matches with
  | None => Ret (map (fun m => int_from m 0) matches)
  | Some m => Raise (digits_limit_error m)
  end.
Proof.
  induction matches as [|m rest IH]; simpl; [reflexivity|].
  unfold int, too_long in *. destruct (Nat.ltb max_str_digits (String.length m)).
  - reflexivity.
  - change (int_each rest ≫= (fun numbers => mret (int_from m 0 :: numbers)) =
            match List.find too_long rest with
            | Some m0 => Raise (digits_limit_error m0)
            | None => Ret (int_from m 0 :: map (fun m0 => int_from m0 0) rest)
            end).
    rewrite IH. unfold too_long. destruct (List.find _ rest); reflexivity.
Qed.

(** A run of more digits than the limit is not converted. *)
Lemma _extract_numbers_too_long (d : string) :
  all_digits d = true ->
  (max_str_digits < String.length d)%nat ->
  call_function _extract_numbers [ArgStr d] = Raise (digits_limit_error d).
Proof.
  intros Hd Hlen. unfold call_function. simpl.
  assert (Hfind : findall_digits d = [d]).
  { unfold findall_digits. rewrite <- (append_empty_r d) at 1.
    rewrite findall_digits_from_run by exact Hd. simpl.
    destruct d; [inversion Hlen|reflexivity]. }
  rewrite Hfind, int_each_spec. simpl. unfold too_long.
  apply Nat.ltb_lt in Hlen. rewrite Hlen. reflexivity.
Qed.

(** X14. [_extract_numbers], called with the string alone, returns the
    numbers of the matches when no match has more than 4300 digits, and
    raises the [ValueError] of [int] for the first match that has.  The
    numbers are never negative: a sign before the digits is not part of
    the match. *)
Theorem _extract_numbers_nonnegative (input_string : string) :
  call_function _extract_numbers [ArgStr input_string] =
    match List.find too_long (findall_digits input_string) with
    | None => Ret (map (fun m => int_from m 0) (findall_digits input_string))
    | Some m => Raise (digits_limit_error m)
    end /\
  Forall (fun n => 0 <= n)
         (map (fun m => int_from m 0) (findall_digits input_string)) /\
  call_function _extract_numbers [ArgStr "-5"] = Ret [5].
Proof.
  split; [apply int_each_spec|]. split; [|reflexivity].
  apply Forall_map.
  eapply Forall_impl;
    [apply (findall_digits_from_matches input_string EmptyString eq_refl)|].
  intros m [_ Hm]. simpl. apply int_from_nonneg; [exact Hm|lia].
Qed.

(** *** Decimal numbers in a message *)

Lemma pretty_N_char_digit (y : N) : is_digit (pretty_N_char y) = true.
Proof. unfold pretty_N_char. repeat case_match; reflexivity. Qed.

Lemma pretty_N_char_value (y : N) :
  (y < 10)%N -> digit_value (pretty_N_char y) = Z.of_N y.
Proof.
  intros Hy.
  assert (y = 0 \/ y = 1 \/ y = 2 \/ y = 3 \/ y = 4 \/ y = 5 \/ y = 6 \/
          y = 7 \/ y = 8 \/ y = 9)%N as H by lia.
  repeat (destruct H as [->|H]; [reflexivity|]). subst y. reflexivity.
Qed.

Lemma pretty_N_go_digits (x : N) (s : string) :
  all_digits s = true -> all_digits (pretty_N_go x s) = true.
Proof.
  revert s. induction (N.lt_wf_0 x) as [x _ IH]; intros s Hs.
  destruct (decide (0 < x)%N) as [Hx|Hx].
  - rewrite pretty_N_go_step by exact Hx.
    apply IH; [apply N.div_lt; lia|].
    unfold all_digits in *. simpl. rewrite pretty_N_char_digit. exact Hs.
  - assert (x = 0%N) as -> by lia. rewrite pretty_N_go_0. exact Hs.
Qed.

Lemma pretty_N_go_nonempty (x : N) (s : string) :
  s <> EmptyString -> pretty_N_go x s <> EmptyString.
Proof.
  revert s. induction (N.lt_wf_0 x) as [x _ IH]; intros s Hs.
  destruct (decide (0 < x)%N) as [Hx|Hx].
  - rewrite pretty_N_go_step by exact Hx.
    apply IH; [apply N.div_lt; lia|discriminate].
  - assert (x = 0%N) as -> by lia. rewrite pretty_N_go_0. exact Hs.
Qed.

Lemma pretty_N_digits (n : N) :
  all_digits (pretty n) = true /\ pretty n <> EmptyString.
Proof.
  unfold pretty, pretty_N. destruct (decide (n = 0%N)) as [->|Hn].
  - split; [reflexivity|discriminate].
  - split; [apply pretty_N_go_digits; reflexivity|].
    rewrite pretty_N_go_step by lia. apply pretty_N_go_nonempty. discriminate.
Qed.

Lemma int_from_pretty_N_go (x : N) :
  exists k : Z, 0 <= k /\
    forall (s : string) (acc : Z),
      int_from (pretty_N_go x s) acc = int_from s (acc * 10 ^ k + Z.of_N x).
Proof.
  induction (N.lt_wf_0 x) as [x _ IH].
  destruct (decide (0 < x)%N) as [Hx|Hx].
  - destruct (IH (x `div` 10)%N) as (k & Hk & Hgo); [apply N.div_lt; lia|].
    exists (k + 1). split; [lia|]. intros s acc.
    rewrite pretty_N_go_step by exact Hx. rewrite Hgo. simpl.
    rewrite pretty_N_char_value by (apply N.mod_lt; lia).
    f_equal. rewrite Z.pow_add_r by lia.
    rewrite N2Z.inj_div, N2Z.inj_mod.
    pose proof (Z.div_mod (Z.of_N x) 10 ltac:(lia)). simpl in *. lia.
  - assert (x = 0%N) as -> by lia. exists 0. split; [lia|]. intros s acc.
    rewrite pretty_N_go_0. f_equal. simpl. lia.
Qed.

(** The decimal rendering of a natural number, read back. *)
Lemma int_pretty (n : N) : int_from (pretty n) 0 = Z.of_N n.
Proof.
  unfold pretty, pretty_N. destruct (decide (n = 0%N)) as [->|Hn].
  - reflexivity.
  - destruct (int_from_pretty_N_go n) as (k & _ & Hgo). rewrite Hgo.
    simpl. lia.
Qed.

(** Two runs of digits with text without digits between them. *)
Lemma findall_digits_two (d1 t d2 : string) :
  all_digits d1 = true -> d1 <> EmptyString ->
  all_digits d2 = true -> d2 <> EmptyString ->
  existsb is_digit (list_ascii_of_string t) = false -> t <> EmptyString ->
  findall_digits (d1 +:+ t +:+ d2) = [d1; d2].
Proof.
  intros H1 N1 H2 N2 Ht Nt. unfold findall_digits.
  rewrite findall_digits_from_run by exact H1.
  destruct t as [|c t]; [congruence|]. simpl in Ht.
  apply orb_false_iff in Ht as [Hc Ht].
  change (String c t +:+ d2) with (EmptyString +:+ String c (t +:+ d2)).
  rewrite findall_digits_from_separator by exact Hc.
  rewrite findall_digits_from_skip by exact Ht.
  rewrite <- (append_empty_r d2) at 1.
  rewrite findall_digits_from_run by exact H2.
  simpl. destruct d1; [congruence|]. destruct d2; [congruence|]. reflexivity.
Qed.

(** X15. [_extract_numbers], called with the message alone, reads the
    counts back from a confirmation: for the decimal renderings of two
    natural numbers [n] and [m] of at most 4300 digits each, with a text
    without digits between them, it returns [[n; m]]. *)
Theorem _extract_numbers_reads_counts (n m : N) (t : string) :
  existsb is_digit (list_ascii_of_string t) = false ->
  t <> EmptyString ->
  (String.length (pretty n) <= max_str_digits)%nat ->
  (String.length (pretty m) <= max_str_digits)%nat ->
  call_function _extract_numbers [ArgStr (pretty n +:+ t +:+ pretty m)] =
  Ret [Z.of_N n; Z.of_N m].
Proof.
  intros Ht Nt Ln Lm.
  destruct (pretty_N_digits n) as [H1 N1], (pretty_N_digits m) as [H2 N2].
  unfold call_function. simpl.
  rewrite (findall_digits_two _ _ _ H1 N1 H2 N2 Ht Nt).
  rewrite int_each_spec. simpl. unfold too_long.
  apply Nat.ltb_ge in Ln, Lm. rewrite Ln, Lm.
  rewrite !int_pretty. reflexivity.
Qed.

Lemma _extract_numbers_reads_counts_witness :
  call_function _extract_numbers
    [ArgStr ("3" +:+ " objects inserted into segment " +:+ "5")] =
  Ret [3; 5].
Proof.
  apply (_extract_numbers_reads_counts 3 5 " objects inserted into segment ").
  - reflexivity.
  - discriminate.
  - vm_compute. lia.
  - vm_compute. lia.
Defined.

(** ** validation and the target of the sink *)

(** X16. [validation] looks at the project and the key only: two sinks
    with the same [project_id] and [api_key] are validated by the same
    program, whatever their [db_id] and [table_name], so a sink passes
    [validation] whether its database and its table exist or not. *)
Theorem validation_ignores_database {S : Type} (h : backend S) (s : S)
  (self other : EpsillaSink) :
  project_id self = project_id other ->
  api_key self = api_key other ->
  validation self = validation other /\
  run h (validation self) s = run h (validation other) s.
Proof.
  intros Hp Hk. unfold validation. rewrite Hp, Hk. split; reflexivity.
Qed.

Lemma validation_ignores_database_witness :
  run (scripted (all_ok "")) (validation example_sink) [] =
  run (scripted (all_ok ""))
      (validation {| project_id := "p"; api_key := "k";
                     db_id := "no such database";
                     table_name := "no such table" |}) [].
Proof.
  refine (proj2 (validation_ignores_database (scripted (all_ok "")) []
            example_sink
            {| project_id := "p"; api_key := "k";
               db_id := "no such database";
               table_name := "no such table" |} _ _)).
  - reflexivity.
  - reflexivity.
Defined.
